(** * TaskMate Terraform provider: the REST client and its adapters

    A shallow embedding of [internal/provider]: the API client
    ([client.go]), the provider's [Configure], the managed task resource
    ([task_resource.go]) and the two data sources.  Go's [(value, error)]
    returns become sums, the remote API and the requests put on the wire
    are threaded as an explicit world, and the library calls the provider
    only forwards to (JSON, time formatting, [fmt.Sscanf], the HTTP
    transport) are the fields of an interface the development is generic
    in.  Go's scanner for [%d] is also written out, for what depends on
    which id strings it accepts. *)

From Stdlib Require Import ZArith Ascii String DecimalString DecimalPos DecimalZ.
From stdpp Require Import base option list strings gmap.

Local Open Scope string_scope.
Local Open Scope Z_scope.

(** ** Go values *)

(** A Go [error] is observed through its message only. *)
Definition error := string.

(** [fmt.Sprintf("%d", n)] on an [int]: the decimal digits, with a leading
    minus sign for a negative number. *)
Definition Sprintf_d (n : Z) : string := NilZero.string_of_int (Z.to_int n).

(** ** [fmt.Sscanf(s, "%d", &id)]

    Go's scanner for the verb [%d] into an [int] of 64 bits, after
    [fmt/scan.go]: [doScanf] skips the leading space, where a newline is
    an error; [scanInt] accepts one sign; [scanNumber] takes the decimal
    digits that follow, at least one; [strconv.ParseInt] gives their value
    or a range error.  What follows the digits is left unread and is no
    error. *)

Definition is_digit (c : ascii) : bool :=
  match c with
  | "0" | "1" | "2" | "3" | "4" | "5" | "6" | "7" | "8" | "9" => true
  | _ => false
  end%char.

Definition is_sign (c : ascii) : bool :=
  match c with
  | "+" | "-" => true
  | _ => false
  end%char.

(** [isSpace] on a rune of one byte other than the newline: U+0009,
    U+000B to U+000D and U+0020. *)
Definition is_space1 (c : ascii) : bool :=
  match c with
  | "009" | "011" | "012" | "013" | " " => true
  | _ => false
  end%char.

(** [isSpace] on a rune of two bytes: U+0085 and U+00A0, in UTF-8 the
    bytes C2 85 and C2 A0. *)
Definition is_space2 (c1 c2 : ascii) : bool :=
  match c1, c2 with
  | "194", "133" | "194", "160" => true
  | _, _ => false
  end%char.

(** The third byte of U+2000 to U+200A, U+2028, U+2029 and U+202F, whose
    first two are E2 80. *)
Definition is_general_space (c3 : ascii) : bool :=
  match c3 with
  | "128" | "129" | "130" | "131" | "132" | "133" | "134" | "135" | "136"
  | "137" | "138" | "168" | "169" | "175" => true
  | _ => false
  end%char.

(** [isSpace] on a rune of three bytes: U+1680 (E1 9A 80), those of
    [is_general_space], U+205F (E2 81 9F) and U+3000 (E3 80 80). *)
Definition is_space3 (c1 c2 c3 : ascii) : bool :=
  match c1, c2 with
  | "225", "154" => Ascii.eqb c3 "128"
  | "226", "128" => is_general_space c3
  | "226", "129" => Ascii.eqb c3 "159"
  | "227", "128" => Ascii.eqb c3 "128"
  | _, _ => false
  end%char.

(** [ss.SkipSpace] with [nlIsSpace] false, as [Sscanf] sets it: the input
    left after the leading space runes, or the newline error. *)
Fixpoint SkipSpace (s : string) : error + string :=
  match s with
  | EmptyString => inr EmptyString
  | String c rest =>
      if Ascii.eqb c "010"%char then inl "unexpected newline"
      else if is_space1 c then SkipSpace rest
      else
        match rest with
        | EmptyString => inr s
        | String c2 rest2 =>
            if is_space2 c c2 then SkipSpace rest2
            else
              match rest2 with
              | EmptyString => inr s
              | String c3 rest3 =>
                  if is_space3 c c2 c3 then SkipSpace rest3 else inr s
              end
        end
  end.

(** The decimal digits at the start of the input, and the rest. *)
Fixpoint take_digits (s : string) : string * string :=
  match s with
  | EmptyString => (EmptyString, EmptyString)
  | String c rest =>
      if is_digit c then
        let '(digits, remaining) := take_digits rest in (String c digits, remaining)
      else (EmptyString, s)
  end.

(** A run of decimal digits as a [Decimal.uint]. *)
Fixpoint digits_uint (s : string) : Decimal.uint :=
  match s with
  | EmptyString => Decimal.Nil
  | String c rest =>
      let d := digits_uint rest in
      match c with
      | "0" => Decimal.D0 d
      | "1" => Decimal.D1 d
      | "2" => Decimal.D2 d
      | "3" => Decimal.D3 d
      | "4" => Decimal.D4 d
      | "5" => Decimal.D5 d
      | "6" => Decimal.D6 d
      | "7" => Decimal.D7 d
      | "8" => Decimal.D8 d
      | _ => Decimal.D9 d
      end%char
  end.

(** The double quote of [%q]. *)
Definition quote : string := String "034"%char EmptyString.

(** [strconv.ParseInt(tok, 10, 64)] on a token of one optional sign and at
    least one digit: the magnitude may reach [2 ^ 63] under a minus sign
    and must stay below it otherwise. *)
Definition ParseInt (tok : string) : error + Z :=
  let negative :=
    match tok with
    | String c _ => Ascii.eqb c "-"%char
    | EmptyString => false
    end in
  let digits :=
    match tok with
    | String c rest => if is_sign c then rest else tok
    | EmptyString => tok
    end in
  let magnitude := Z.of_uint (digits_uint digits) in
  if (if negative then 2 ^ 63 >=? magnitude else 2 ^ 63 >? magnitude) then
    inr (if negative then - magnitude else magnitude)
  else
    inl ("strconv.ParseInt: parsing " ++ quote ++ tok ++ quote ++
         ": value out of range").

(** The message of [io.EOF], which [notEOF] raises when the input is used
    up where the number or its digits should begin. *)
Definition io_EOF : error := "EOF".

Definition Sscanf_d_go (s : string) : error + Z :=
  match SkipSpace s with
  | inl err => inl err
  | inr EmptyString => inl io_EOF
  | inr (String c rest as input) =>
      let number := if is_sign c then rest else input in
      match number with
      | EmptyString => inl io_EOF
      | String _ _ =>
          match fst (take_digits number) with
          | EmptyString => inl "expected integer"
          | String _ _ as digits =>
              ParseInt (if is_sign c then String c digits else digits)
          end
      end
  end.





(** Status codes of [net/http] the client compares against. *)
Definition http_StatusOK : Z := 200.
Definition http_StatusCreated : Z := 201.
Definition http_StatusNoContent : Z := 204.
Definition http_StatusNotFound : Z := 404.

(** [time.Second], in nanoseconds. *)
Definition time_Second : Z := 1000000000.

(** [http.Header]: field name to the list of its values. *)
Abbreviation http_Header := (gmap string (list string)).

(** [Header.Set]: the field holds exactly the given value afterwards.
    [net/http] brings a field name to its canonical case in [Set] and in
    [Get] alike; the map here is keyed by the name as the source writes
    it, so a lookup at that name is Go's [Header.Get]. *)
Definition Header_Set (key value : string) (h : http_Header) : http_Header :=
  <[key := [value]]> h.

(** [http.Request], as far as [makeRequest] fills it in. *)
Record http_Request := {
  Method : string;
  URL : string;
  Header : http_Header;
  Body : option string
}.

(** [http.Response]: the status code and the bytes [resp.Body] yields. *)
Record http_Response := {
  StatusCode : Z;
  RespBody : string
}.

(** [http.Client] *)
Record http_Client := { Timeout : Z }.

(** ** The plugin framework's values *)

(** [types.String]: null, unknown, or a known string. *)
Inductive types_String :=
  | StringNull
  | StringUnknown
  | StringValue (s : string).

(** [ValueString]: the known value, the empty string otherwise. *)
Definition ValueString (v : types_String) : string :=
  match v with
  | StringValue s => s
  | StringNull | StringUnknown => EmptyString
  end.

Inductive Severity := SeverityError | SeverityWarning.

Record Diagnostic := {
  severity : Severity;
  Summary : string;
  Detail : string
}.

#[global] Instance Severity_eq_dec : EqDecision Severity.
Proof. solve_decision. Defined.

#[global] Instance Diagnostic_eq_dec : EqDecision Diagnostic.
Proof. solve_decision. Defined.

Definition NewErrorDiagnostic (summary detail : string) : Diagnostic :=
  {| severity := SeverityError; Summary := summary; Detail := detail |}.

(** [Diagnostics.Append]: each incoming diagnostic is added at the end
    unless the collection already contains an equal one. *)
Fixpoint Diagnostics_Append (diags incoming : list Diagnostic) : list Diagnostic :=
  match incoming with
  | [] => diags
  | d :: rest =>
      Diagnostics_Append (if bool_decide (d ∈ diags) then diags else diags ++ [d]) rest
  end.

Definition Diagnostics_AddError (diags : list Diagnostic) (summary detail : string)
  : list Diagnostic :=
  Diagnostics_Append diags [NewErrorDiagnostic summary detail].

Definition is_error (d : Diagnostic) : bool :=
  match severity d with SeverityError => true | SeverityWarning => false end.

Definition Diagnostics_HasError (diags : list Diagnostic) : bool :=
  existsb is_error diags.

(** What [Get(ctx, &data)] does on a plan, a prior state or a
    configuration: the diagnostics it returns and the struct it fills. *)
Record tfsdk_Data (T : Type) := {
  Get_diags : list Diagnostic;
  Get_data : T
}.
Arguments Get_diags {T} _.
Arguments Get_data {T} _.

(** The request of a callback.  The host fills the parts the callback's
    kind has; every callback below reads exactly one of them. *)
Module request.
Record t (T : Type) := {
  Config : tfsdk_Data T;
  Plan : tfsdk_Data T;
  State : tfsdk_Data T
}.
Arguments Config {T} _.
Arguments Plan {T} _.
Arguments State {T} _.
End request.

(** The response of a callback, which the callback updates in place:
    the diagnostics collected so far and the state to persist ([None]: no
    state). *)
Module response.
Record t (T : Type) := {
  Diagnostics : list Diagnostic;
  State : option T
}.
Arguments Diagnostics {T} _.
Arguments State {T} _.

Definition Append {T} (resp : t T) (ds : list Diagnostic) : t T :=
  {| Diagnostics := Diagnostics_Append (Diagnostics resp) ds;
     State := State resp |}.

Definition AddError {T} (resp : t T) (summary detail : string) : t T :=
  {| Diagnostics := Diagnostics_AddError (Diagnostics resp) summary detail;
     State := State resp |}.

Definition HasError {T} (resp : t T) : bool :=
  Diagnostics_HasError (Diagnostics resp).

(** [resp.Diagnostics.Append(resp.State.Set(ctx, &data)...)] with a
    struct that matches the schema: the state is replaced and [Set]
    returns no diagnostics. *)
Definition State_Set {T} (resp : t T) (data : T) : t T :=
  Append {| Diagnostics := Diagnostics resp; State := Some data |} [].
End response.

(** A callback either returns or dies on a nil pointer. *)
Inductive Outcome (A : Type) :=
  | Returned (a : A)
  | Panicked.
Arguments Returned {A} _.
Arguments Panicked {A}.

(** ** Models and receivers *)

Record Client := {
  Host : string;
  Token : string;
  client : http_Client
}.

Definition NewClient (host token : string) : Client :=
  {| Host := host;
     Token := token;
     client := {| Timeout := 30 * time_Second |} |}.

Module TaskResourceModel.
Record t := {
  ID : types_String;
  Title : types_String;
  Description : types_String;
  DueDate : types_String;
  Priority : types_String;
  Status : types_String;
  CreatedAt : types_String;
  UpdatedAt : types_String
}.
End TaskResourceModel.

Module TaskDataSourceModel.
Record t := {
  ID : types_String;
  Title : types_String;
  Description : types_String;
  DueDate : types_String;
  Priority : types_String;
  Status : types_String;
  CreatedAt : types_String;
  UpdatedAt : types_String
}.

(** the zero value: every attribute null *)
Definition zero : t :=
  {| ID := StringNull; Title := StringNull; Description := StringNull;
     DueDate := StringNull; Priority := StringNull; Status := StringNull;
     CreatedAt := StringNull; UpdatedAt := StringNull |}.
End TaskDataSourceModel.

Module TasksDataSourceModel.
Record t := {
  Tasks : list TaskDataSourceModel.t;
  ID : types_String
}.
End TasksDataSourceModel.

Module TaskMateProviderModel.
Record t := {
  Host : types_String;
  Token : types_String
}.
End TaskMateProviderModel.

Module TaskResource.
Record t := { client : Client }.
End TaskResource.

Module TaskDataSource.
Record t := { client : Client }.
End TaskDataSource.

Module TasksDataSource.
Record t := { client : Client }.
End TasksDataSource.

(** ** The provider's Configure *)

Module TaskMateProvider.
Record t := { version : string }.

Record ConfigureRequest := {
  Config : tfsdk_Data TaskMateProviderModel.t
}.

Record ConfigureResponse := {
  Diagnostics : list Diagnostic;
  DataSourceData : option Client;
  ResourceData : option Client
}.

Definition Configure (p : t) (req : ConfigureRequest) (resp : ConfigureResponse)
  : ConfigureResponse :=
  let data := Get_data (Config req) in
  let resp :=
    {| Diagnostics := Diagnostics_Append (Diagnostics resp) (Get_diags (Config req));
       DataSourceData := DataSourceData resp;
       ResourceData := ResourceData resp |} in
  if Diagnostics_HasError (Diagnostics resp) then resp
  else
    let host := ValueString (TaskMateProviderModel.Host data) in
    let host := if String.eqb host EmptyString then "http://localhost:8080" else host in
    let token := ValueString (TaskMateProviderModel.Token data) in
    let client := NewClient host token in
    {| Diagnostics := Diagnostics resp;
       DataSourceData := Some client;
       ResourceData := Some client |}.
End TaskMateProvider.

(** ** Libraries the provider forwards to *)

(** [time.Time] and its [Format] method. *)
Class TimeLib := {
  Time : Type;
  Time_Format : Time -> string -> string
}.

Section Domain.
Context `{TimeLib}.

(** [Task] of [client.go] *)
Record Task := {
  ID : Z;
  Title : string;
  Description : string;
  DueDate : string;
  Priority : string;
  Status : string;
  CreatedAt : Time;
  UpdatedAt : Time
}.

End Domain.

(** The rest of the runtime: [encoding/json], [net/http] and [fmt.Sscanf].
    [Remote] is the state of the task API behind the transport. *)
Class Runtime `{TimeLib} := {
  (** [json.Marshal] of a [map[string]string] *)
  json_Marshal : gmap string string -> error + string;
  (** [json.NewDecoder(body).Decode(&task)] with [task] a fresh [Task] *)
  json_Decode_Task : string -> error + Task;
  (** the same into a [[]*Task]; a JSON [null] element is a nil pointer *)
  json_Decode_Tasks : string -> error + list (option Task);
  (** the error of [http.NewRequest(method, url, body)], if it rejects *)
  http_NewRequest_err : string -> string -> option error;
  Remote : Type;
  (** [client.Do(req)]: a transport error or the response, and the remote
      state afterwards *)
  http_Do : http_Client -> http_Request -> Remote -> (error + http_Response) * Remote;
  (** [fmt.Sscanf(s, "%d", &id)]: the error, or the value stored in [id] *)
  Sscanf_d : string -> error + Z
}.

(** ** The world and the monad the client runs in *)

Section Provider.
Context `{Runtime}.

(** The remote API and every request sent so far, oldest first. *)
Record World := {
  remote : Remote;
  wire : list http_Request
}.

Definition M (A : Type) : Type := World -> A * World.

Definition ret {A} (a : A) : M A := fun w => (a, w).

Definition bind {A B} (m : M A) (k : A -> M B) : M B :=
  fun w => let '(a, w1) := m w in k a w1.

Notation "x <- m ;; k" := (bind m (fun x => k))
  (at level 100, m at next level, right associativity).

(** [c.client.Do(req)]: the request goes out and the remote answers. *)
Definition Do (hc : http_Client) (req : http_Request) : M (error + http_Response) :=
  fun w =>
    let '(r, rem) := http_Do hc req (remote w) in
    (r, {| remote := rem; wire := wire w ++ [req] |}).

(** ** client.go *)

(** [http.NewRequest]: rejects, or a request with an empty header. *)
Definition http_NewRequest (method url : string) (body : option string)
  : error + http_Request :=
  match http_NewRequest_err method url with
  | Some err => inl err
  | None => inr {| Method := method; URL := url; Header := ∅; Body := body |}
  end.

Definition marshal_error (err : error) : error :=
  "failed to marshal request body: " ++ err.

Definition request_error (err : error) : error :=
  "failed to create request: " ++ err.

Definition makeRequest (c : Client) (method path : string)
    (body : option (gmap string string)) : M (error + http_Response) :=
  let url := Host c ++ "/api/v1" ++ path in
  let marshalled : error + option string :=
    match body with
    | Some b =>
        match json_Marshal b with
        | inl err => inl (marshal_error err)
        | inr jsonBody => inr (Some jsonBody)
        end
    | None => inr None
    end in
  match marshalled with
  | inl err => ret (inl err)
  | inr reqBody =>
      match http_NewRequest method url reqBody with
      | inl err => ret (inl (request_error err))
      | inr req =>
          let header :=
            if String.eqb (Token c) EmptyString then Header req
            else Header_Set "X-API-Token" (Token c) (Header req) in
          let header := Header_Set "Content-Type" "application/json" header in
          Do (client c)
             {| Method := Method req; URL := URL req;
                Header := header; Body := Body req |}
      end
  end.

Definition api_error (resp : http_Response) : error :=
  "API error: " ++ RespBody resp ++ " (status: " ++ Sprintf_d (StatusCode resp) ++ ")".

Definition not_found (id : Z) : error :=
  "task with ID " ++ Sprintf_d id ++ " not found".

Definition decode_error (err : error) : error :=
  "failed to decode response: " ++ err.

Definition CreateTask (c : Client) (title description dueDate priority : string)
  : M (error + Task) :=
  let reqBody : gmap string string :=
    {[ "title" := title; "description" := description;
       "due_date" := dueDate; "priority" := priority ]} in
  r <- makeRequest c "POST" "/tasks" (Some reqBody) ;;
  match r with
  | inl err => ret (inl err)
  | inr resp =>
      if negb (StatusCode resp =? http_StatusCreated) then
        ret (inl (api_error resp))
      else
        match json_Decode_Task (RespBody resp) with
        | inl err => ret (inl (decode_error err))
        | inr task => ret (inr task)
        end
  end.

Definition GetTask (c : Client) (id : Z) : M (error + Task) :=
  r <- makeRequest c "GET" ("/tasks/" ++ Sprintf_d id) None ;;
  match r with
  | inl err => ret (inl err)
  | inr resp =>
      if StatusCode resp =? http_StatusNotFound then
        ret (inl (not_found id))
      else if negb (StatusCode resp =? http_StatusOK) then
        ret (inl (api_error resp))
      else
        match json_Decode_Task (RespBody resp) with
        | inl err => ret (inl (decode_error err))
        | inr task => ret (inr task)
        end
  end.

Definition UpdateTask (c : Client) (id : Z)
    (title description dueDate priority status : string) : M (error + Task) :=
  let reqBody : gmap string string :=
    {[ "title" := title; "description" := description;
       "due_date" := dueDate; "priority" := priority; "status" := status ]} in
  r <- makeRequest c "PUT" ("/tasks/" ++ Sprintf_d id) (Some reqBody) ;;
  match r with
  | inl err => ret (inl err)
  | inr resp =>
      if StatusCode resp =? http_StatusNotFound then
        ret (inl (not_found id))
      else if negb (StatusCode resp =? http_StatusOK) then
        ret (inl (api_error resp))
      else
        match json_Decode_Task (RespBody resp) with
        | inl err => ret (inl (decode_error err))
        | inr task => ret (inr task)
        end
  end.

(** [DeleteTask] returns only an error: [None] is Go's [nil]. *)
Definition DeleteTask (c : Client) (id : Z) : M (option error) :=
  r <- makeRequest c "DELETE" ("/tasks/" ++ Sprintf_d id) None ;;
  match r with
  | inl err => ret (Some err)
  | inr resp =>
      if StatusCode resp =? http_StatusNotFound then
        ret (Some (not_found id))
      else if negb (StatusCode resp =? http_StatusNoContent) then
        ret (Some (api_error resp))
      else ret None
  end.

Definition ListTasks (c : Client) : M (error + list (option Task)) :=
  r <- makeRequest c "GET" "/tasks" None ;;
  match r with
  | inl err => ret (inl err)
  | inr resp =>
      if negb (StatusCode resp =? http_StatusOK) then
        ret (inl (api_error resp))
      else
        match json_Decode_Tasks (RespBody resp) with
        | inl err => ret (inl (decode_error err))
        | inr tasks => ret (inr tasks)
        end
  end.

(** The layout every timestamp is formatted with. *)
Definition timestamp_layout : string := "2006-01-02T15:04:05Z07:00".

Definition format_time (t : Time) : types_String :=
  StringValue (Time_Format t timestamp_layout).

(** ** task_resource.go *)

Definition TaskResource_Create (r : TaskResource.t) (req : request.t TaskResourceModel.t)
    (resp : response.t TaskResourceModel.t) : M (response.t TaskResourceModel.t) :=
  let data := Get_data (request.Plan req) in
  let resp := response.Append resp (Get_diags (request.Plan req)) in
  if response.HasError resp then ret resp
  else
    res <- CreateTask (TaskResource.client r)
             (ValueString (TaskResourceModel.Title data))
             (ValueString (TaskResourceModel.Description data))
             (ValueString (TaskResourceModel.DueDate data))
             (ValueString (TaskResourceModel.Priority data)) ;;
    match res with
    | inl err =>
        ret (response.AddError resp "Client Error"
               ("Unable to create task, got error: " ++ err))
    | inr task =>
        let data :=
          {| TaskResourceModel.ID := StringValue (Sprintf_d (ID task));
             TaskResourceModel.Title := StringValue (Title task);
             TaskResourceModel.Description := StringValue (Description task);
             TaskResourceModel.DueDate := StringValue (DueDate task);
             TaskResourceModel.Priority := StringValue (Priority task);
             TaskResourceModel.Status := StringValue (Status task);
             TaskResourceModel.CreatedAt := format_time (CreatedAt task);
             TaskResourceModel.UpdatedAt := format_time (UpdatedAt task) |} in
        ret (response.State_Set resp data)
    end.

Definition TaskResource_Read (r : TaskResource.t) (req : request.t TaskResourceModel.t)
    (resp : response.t TaskResourceModel.t) : M (response.t TaskResourceModel.t) :=
  let data := Get_data (request.State req) in
  let resp := response.Append resp (Get_diags (request.State req)) in
  if response.HasError resp then ret resp
  else
    match Sscanf_d (ValueString (TaskResourceModel.ID data)) with
    | inl err =>
        ret (response.AddError resp "Parse Error"
               ("Unable to parse task ID: " ++ err))
    | inr id =>
        res <- GetTask (TaskResource.client r) id ;;
        match res with
        | inl err =>
            ret (response.AddError resp "Client Error"
                   ("Unable to read task, got error: " ++ err))
        | inr task =>
            let data :=
              {| TaskResourceModel.ID := TaskResourceModel.ID data;
                 TaskResourceModel.Title := StringValue (Title task);
                 TaskResourceModel.Description := StringValue (Description task);
                 TaskResourceModel.DueDate := StringValue (DueDate task);
                 TaskResourceModel.Priority := StringValue (Priority task);
                 TaskResourceModel.Status := StringValue (Status task);
                 TaskResourceModel.CreatedAt := format_time (CreatedAt task);
                 TaskResourceModel.UpdatedAt := format_time (UpdatedAt task) |} in
            ret (response.State_Set resp data)
        end
    end.

Definition TaskResource_Update (r : TaskResource.t) (req : request.t TaskResourceModel.t)
    (resp : response.t TaskResourceModel.t) : M (response.t TaskResourceModel.t) :=
  let data := Get_data (request.Plan req) in
  let resp := response.Append resp (Get_diags (request.Plan req)) in
  if response.HasError resp then ret resp
  else
    match Sscanf_d (ValueString (TaskResourceModel.ID data)) with
    | inl err =>
        ret (response.AddError resp "Parse Error"
               ("Unable to parse task ID: " ++ err))
    | inr id =>
        res <- UpdateTask (TaskResource.client r) id
                 (ValueString (TaskResourceModel.Title data))
                 (ValueString (TaskResourceModel.Description data))
                 (ValueString (TaskResourceModel.DueDate data))
                 (ValueString (TaskResourceModel.Priority data))
                 (ValueString (TaskResourceModel.Status data)) ;;
        match res with
        | inl err =>
            ret (response.AddError resp "Client Error"
                   ("Unable to update task, got error: " ++ err))
        | inr task =>
            let data :=
              {| TaskResourceModel.ID := TaskResourceModel.ID data;
                 TaskResourceModel.Title := StringValue (Title task);
                 TaskResourceModel.Description := StringValue (Description task);
                 TaskResourceModel.DueDate := StringValue (DueDate task);
                 TaskResourceModel.Priority := StringValue (Priority task);
                 TaskResourceModel.Status := StringValue (Status task);
                 TaskResourceModel.CreatedAt := format_time (CreatedAt task);
                 TaskResourceModel.UpdatedAt := format_time (UpdatedAt task) |} in
            ret (response.State_Set resp data)
        end
    end.

Definition TaskResource_Delete (r : TaskResource.t) (req : request.t TaskResourceModel.t)
    (resp : response.t TaskResourceModel.t) : M (response.t TaskResourceModel.t) :=
  let data := Get_data (request.State req) in
  let resp := response.Append resp (Get_diags (request.State req)) in
  if response.HasError resp then ret resp
  else
    match Sscanf_d (ValueString (TaskResourceModel.ID data)) with
    | inl err =>
        ret (response.AddError resp "Parse Error"
               ("Unable to parse task ID: " ++ err))
    | inr id =>
        res <- DeleteTask (TaskResource.client r) id ;;
        match res with
        | Some err =>
            ret (response.AddError resp "Client Error"
                   ("Unable to delete task, got error: " ++ err))
        | None => ret resp
        end
    end.

(** ** The single-task data source *)

Definition TaskDataSource_Read (d : TaskDataSource.t)
    (req : request.t TaskDataSourceModel.t)
    (resp : response.t TaskDataSourceModel.t) : M (response.t TaskDataSourceModel.t) :=
  let data := Get_data (request.Config req) in
  let resp := response.Append resp (Get_diags (request.Config req)) in
  if response.HasError resp then ret resp
  else
    match Sscanf_d (ValueString (TaskDataSourceModel.ID data)) with
    | inl err =>
        ret (response.AddError resp "Parse Error"
               ("Unable to parse task ID: " ++ err))
    | inr id =>
        res <- GetTask (TaskDataSource.client d) id ;;
        match res with
        | inl err =>
            ret (response.AddError resp "Client Error"
                   ("Unable to read task, got error: " ++ err))
        | inr task =>
            let data :=
              {| TaskDataSourceModel.ID := TaskDataSourceModel.ID data;
                 TaskDataSourceModel.Title := StringValue (Title task);
                 TaskDataSourceModel.Description := StringValue (Description task);
                 TaskDataSourceModel.DueDate := StringValue (DueDate task);
                 TaskDataSourceModel.Priority := StringValue (Priority task);
                 TaskDataSourceModel.Status := StringValue (Status task);
                 TaskDataSourceModel.CreatedAt := format_time (CreatedAt task);
                 TaskDataSourceModel.UpdatedAt := format_time (UpdatedAt task) |} in
            ret (response.State_Set resp data)
        end
    end.

(** ** tasks_data_source.go *)

(** The element [Read] stores for one task. *)
Definition task_element (task : Task) : TaskDataSourceModel.t :=
  {| TaskDataSourceModel.ID := StringValue (Sprintf_d (ID task));
     TaskDataSourceModel.Title := StringValue (Title task);
     TaskDataSourceModel.Description := StringValue (Description task);
     TaskDataSourceModel.DueDate := StringValue (DueDate task);
     TaskDataSourceModel.Priority := StringValue (Priority task);
     TaskDataSourceModel.Status := StringValue (Status task);
     TaskDataSourceModel.CreatedAt := format_time (CreatedAt task);
     TaskDataSourceModel.UpdatedAt := format_time (UpdatedAt task) |}.

(** [for i, task := range tasks { data.Tasks[i] = ... }], from index [i]
    on; reading a field of a nil [task] panics. *)
Fixpoint convert_tasks (i : nat) (tasks : list (option Task))
    (out : list TaskDataSourceModel.t) : Outcome (list TaskDataSourceModel.t) :=
  match tasks with
  | [] => Returned out
  | None :: _ => Panicked
  | Some task :: rest => convert_tasks (S i) rest (<[i := task_element task]> out)
  end.

Definition TasksDataSource_Read (d : TasksDataSource.t)
    (req : request.t TasksDataSourceModel.t)
    (resp : response.t TasksDataSourceModel.t)
  : M (Outcome (response.t TasksDataSourceModel.t)) :=
  let resp := response.Append resp (Get_diags (request.Config req)) in
  if response.HasError resp then ret (Returned resp)
  else
    res <- ListTasks (TasksDataSource.client d) ;;
    match res with
    | inl err =>
        ret (Returned (response.AddError resp "Client Error"
                         ("Unable to list tasks, got error: " ++ err)))
    | inr tasks =>
        match convert_tasks 0 tasks
                (replicate (length tasks) TaskDataSourceModel.zero) with
        | Panicked => ret Panicked
        | Returned converted =>
            let data :=
              {| TasksDataSourceModel.Tasks := converted;
                 TasksDataSourceModel.ID := StringValue "tasks" |} in
            ret (Returned (response.State_Set resp data))
        end
    end.

End Provider.

(** ** The adapters' Configure and ImportState *)

(** [req.ProviderData], an [any]: nil, a [*Client] (itself possibly a nil
    pointer), or a value of some other type, of which only the name [%T]
    prints matters. *)
Inductive ProviderData :=
  | ProviderData_nil
  | ProviderData_Client (c : option Client)
  | ProviderData_other (type_name : string).

(** How the host hands the provider's [ResourceData] or [DataSourceData]
    to an adapter: unset is the nil interface. *)
Definition as_ProviderData (data : option Client) : ProviderData :=
  match data with
  | None => ProviderData_nil
  | Some c => ProviderData_Client (Some c)
  end.

(** [TaskResource.Configure].  The receiver is its field [r.client], nil
    until a client is installed; the response is its diagnostics. *)
Definition TaskResource_Configure (r_client : option Client) (data : ProviderData)
    (diags : list Diagnostic) : option Client * list Diagnostic :=
  match data with
  | ProviderData_nil => (r_client, diags)
  | ProviderData_Client c => (c, diags)
  | ProviderData_other type_name =>
      (r_client,
       Diagnostics_AddError diags "Unexpected Resource Configure Type"
         ("Expected *Client, got: " ++ type_name ++
          ". Please report this issue to the provider developers."))
  end.

(** [TaskDataSource.Configure] *)
Definition TaskDataSource_Configure (d_client : option Client) (data : ProviderData)
    (diags : list Diagnostic) : option Client * list Diagnostic :=
  match data with
  | ProviderData_nil => (d_client, diags)
  | ProviderData_Client c => (c, diags)
  | ProviderData_other type_name =>
      (d_client,
       Diagnostics_AddError diags "Unexpected Data Source Configure Type"
         ("Expected *Client, got: " ++ type_name ++
          ". Please report this issue to the provider developers."))
  end.

(** [TasksDataSource.Configure] *)
Definition TasksDataSource_Configure (d_client : option Client) (data : ProviderData)
    (diags : list Diagnostic) : option Client * list Diagnostic :=
  match data with
  | ProviderData_nil => (d_client, diags)
  | ProviderData_Client c => (c, diags)
  | ProviderData_other type_name =>
      (d_client,
       Diagnostics_AddError diags "Unexpected Data Source Configure Type"
         ("Expected *Client, got: " ++ type_name ++
          ". Please report this issue to the provider developers."))
  end.

(** [resp.State.SetAttribute(ctx, path.Root("id"), id)]: the id attribute
    is written; on the empty state the host starts an import with, every
    other attribute is null. *)
Definition SetAttribute_id (id : string) (state : option TaskResourceModel.t)
  : TaskResourceModel.t :=
  match state with
  | Some m =>
      {| TaskResourceModel.ID := StringValue id;
         TaskResourceModel.Title := TaskResourceModel.Title m;
         TaskResourceModel.Description := TaskResourceModel.Description m;
         TaskResourceModel.DueDate := TaskResourceModel.DueDate m;
         TaskResourceModel.Priority := TaskResourceModel.Priority m;
         TaskResourceModel.Status := TaskResourceModel.Status m;
         TaskResourceModel.CreatedAt := TaskResourceModel.CreatedAt m;
         TaskResourceModel.UpdatedAt := TaskResourceModel.UpdatedAt m |}
  | None =>
      {| TaskResourceModel.ID := StringValue id;
         TaskResourceModel.Title := StringNull;
         TaskResourceModel.Description := StringNull;
         TaskResourceModel.DueDate := StringNull;
         TaskResourceModel.Priority := StringNull;
         TaskResourceModel.Status := StringNull;
         TaskResourceModel.CreatedAt := StringNull;
         TaskResourceModel.UpdatedAt := StringNull |}
  end.

(** [schema.StringAttribute], with the one plan modifier the provider
    uses, [stringplanmodifier.UseStateForUnknown]. *)
Record StringAttribute := {
  MarkdownDescription : string;
  Required : bool;
  Optional : bool;
  Computed : bool;
  UseStateForUnknown : bool
}.

(** The attributes of [TaskResource.Schema]. *)
Definition TaskResource_Schema : gmap string StringAttribute :=
  {[ "id" :=
       {| MarkdownDescription := "Task identifier"; Required := false;
          Optional := false; Computed := true; UseStateForUnknown := true |};
     "title" :=
       {| MarkdownDescription := "Task title"; Required := true;
          Optional := false; Computed := false; UseStateForUnknown := false |};
     "description" :=
       {| MarkdownDescription := "Task description"; Required := false;
          Optional := true; Computed := false; UseStateForUnknown := false |};
     "due_date" :=
       {| MarkdownDescription := "Task due date (YYYY-MM-DD)"; Required := false;
          Optional := true; Computed := false; UseStateForUnknown := false |};
     "priority" :=
       {| MarkdownDescription := "Task priority (low, medium, high)"; Required := false;
          Optional := true; Computed := true; UseStateForUnknown := false |};
     "status" :=
       {| MarkdownDescription := "Task status (pending, completed)"; Required := false;
          Optional := true; Computed := true; UseStateForUnknown := false |};
     "created_at" :=
       {| MarkdownDescription := "Creation timestamp"; Required := false;
          Optional := false; Computed := true; UseStateForUnknown := false |};
     "updated_at" :=
       {| MarkdownDescription := "Last update timestamp"; Required := false;
          Optional := false; Computed := true; UseStateForUnknown := false |} ]}.

(** The attributes a configuration may set: the required and the optional
    ones. *)
Definition settable (schema : gmap string StringAttribute) : gset string :=
  dom (filter (fun kv => Required (snd kv) || Optional (snd kv) = true) schema).

(** [TaskResource.ImportState]:
    [resource.ImportStatePassthroughID(ctx, path.Root("id"), req, resp)]
    with [req.ID] the import identifier. *)
Definition TaskResource_ImportState (r : TaskResource.t) (req_ID : string)
    (resp : response.t TaskResourceModel.t) : response.t TaskResourceModel.t :=
  response.Append
    {| response.Diagnostics := response.Diagnostics resp;
       response.State := Some (SetAttribute_id req_ID (response.State resp)) |} [].

(** ** The client's operations, as the specification lists them *)

Inductive Operation :=
  | OpCreateTask (title description dueDate priority : string)
  | OpGetTask (id : Z)
  | OpUpdateTask (id : Z) (title description dueDate priority status : string)
  | OpDeleteTask (id : Z)
  | OpListTasks.

(** The method, path and body the specification gives each operation. *)
Definition spec_method (op : Operation) : string :=
  match op with
  | OpCreateTask _ _ _ _ => "POST"
  | OpGetTask _ => "GET"
  | OpUpdateTask _ _ _ _ _ _ => "PUT"
  | OpDeleteTask _ => "DELETE"
  | OpListTasks => "GET"
  end.

Definition spec_path (op : Operation) : string :=
  match op with
  | OpCreateTask _ _ _ _ => "/tasks"
  | OpGetTask id => "/tasks/" ++ Sprintf_d id
  | OpUpdateTask id _ _ _ _ _ => "/tasks/" ++ Sprintf_d id
  | OpDeleteTask id => "/tasks/" ++ Sprintf_d id
  | OpListTasks => "/tasks"
  end.

Definition spec_body (op : Operation) : option (gmap string string) :=
  match op with
  | OpCreateTask title description dueDate priority =>
      Some {[ "title" := title; "description" := description;
              "due_date" := dueDate; "priority" := priority ]}
  | OpUpdateTask _ title description dueDate priority status =>
      Some {[ "title" := title; "description" := description;
              "due_date" := dueDate; "priority" := priority; "status" := status ]}
  | OpGetTask _ | OpDeleteTask _ | OpListTasks => None
  end.

Section Vocabulary.
Context `{Runtime}.

(** The world an operation of the client leaves behind. *)
Definition run (c : Client) (op : Operation) (w : World) : World :=
  match op with
  | OpCreateTask title description dueDate priority =>
      snd (CreateTask c title description dueDate priority w)
  | OpGetTask id => snd (GetTask c id w)
  | OpUpdateTask id title description dueDate priority status =>
      snd (UpdateTask c id title description dueDate priority status w)
  | OpDeleteTask id => snd (DeleteTask c id w)
  | OpListTasks => snd (ListTasks c w)
  end.

(** A callback gets past its [HasError] check. *)
Definition proceeds {T U} (resp : response.t T) (src : tfsdk_Data U) : Prop :=
  Diagnostics_HasError (Diagnostics_Append (response.Diagnostics resp) (Get_diags src)) = false.

(** The request [makeRequest] hands to the transport once the body is
    marshalled and [http.NewRequest] has accepted. *)
Definition outgoing (c : Client) (method path : string) (body : option string)
  : http_Request :=
  {| Method := method;
     URL := Host c ++ "/api/v1" ++ path;
     Header :=
       Header_Set "Content-Type" "application/json"
         (if String.eqb (Token c) EmptyString then ∅
          else Header_Set "X-API-Token" (Token c) ∅);
     Body := body |}.

(** The bytes of a request body, when marshalling succeeds. *)
Inductive marshals : option (gmap string string) -> option string -> Prop :=
  | marshals_none : marshals None None
  | marshals_some b bytes : json_Marshal b = inr bytes -> marshals (Some b) (Some bytes).

(** The parse-error response of Read, Update and Delete. *)
Definition parse_failure {T} (resp : response.t T) (diags : list Diagnostic)
    (err : error) : response.t T :=
  {| response.Diagnostics :=
       (Diagnostics_Append (response.Diagnostics resp) diags ++
        [NewErrorDiagnostic "Parse Error" ("Unable to parse task ID: " ++ err)])%list;
     response.State := response.State resp |}.

(** The client-error response of a callback. *)
Definition client_failure {T} (resp : response.t T) (diags : list Diagnostic)
    (doing : string) (err : error) : response.t T :=
  {| response.Diagnostics :=
       (Diagnostics_Append (response.Diagnostics resp) diags ++
        [NewErrorDiagnostic "Client Error"
           ("Unable to " ++ doing ++ " task, got error: " ++ err)])%list;
     response.State := response.State resp |}.

(** The state Create persists for the task the server answered with. *)
Definition created_state (task : Task) : TaskResourceModel.t :=
  {| TaskResourceModel.ID := StringValue (Sprintf_d (ID task));
     TaskResourceModel.Title := StringValue (Title task);
     TaskResourceModel.Description := StringValue (Description task);
     TaskResourceModel.DueDate := StringValue (DueDate task);
     TaskResourceModel.Priority := StringValue (Priority task);
     TaskResourceModel.Status := StringValue (Status task);
     TaskResourceModel.CreatedAt :=
       StringValue (Time_Format (CreatedAt task) "2006-01-02T15:04:05Z07:00");
     TaskResourceModel.UpdatedAt :=
       StringValue (Time_Format (UpdatedAt task) "2006-01-02T15:04:05Z07:00") |}.

(** The call Create makes for a plan. *)
Definition create_call (r : TaskResource.t) (plan : TaskResourceModel.t)
  : M (error + Task) :=
  CreateTask (TaskResource.client r)
    (ValueString (TaskResourceModel.Title plan))
    (ValueString (TaskResourceModel.Description plan))
    (ValueString (TaskResourceModel.DueDate plan))
    (ValueString (TaskResourceModel.Priority plan)).

(** The state Read persists: the prior id, the rest from the task. *)
Definition refreshed_state (prior : TaskResourceModel.t) (task : Task)
  : TaskResourceModel.t :=
  {| TaskResourceModel.ID := TaskResourceModel.ID prior;
     TaskResourceModel.Title := StringValue (Title task);
     TaskResourceModel.Description := StringValue (Description task);
     TaskResourceModel.DueDate := StringValue (DueDate task);
     TaskResourceModel.Priority := StringValue (Priority task);
     TaskResourceModel.Status := StringValue (Status task);
     TaskResourceModel.CreatedAt :=
       StringValue (Time_Format (CreatedAt task) "2006-01-02T15:04:05Z07:00");
     TaskResourceModel.UpdatedAt :=
       StringValue (Time_Format (UpdatedAt task) "2006-01-02T15:04:05Z07:00") |}.

(** A plan with another status, and a request with another plan. *)
Definition with_status (s : types_String) (plan : TaskResourceModel.t)
  : TaskResourceModel.t :=
  {| TaskResourceModel.ID := TaskResourceModel.ID plan;
     TaskResourceModel.Title := TaskResourceModel.Title plan;
     TaskResourceModel.Description := TaskResourceModel.Description plan;
     TaskResourceModel.DueDate := TaskResourceModel.DueDate plan;
     TaskResourceModel.Priority := TaskResourceModel.Priority plan;
     TaskResourceModel.Status := s;
     TaskResourceModel.CreatedAt := TaskResourceModel.CreatedAt plan;
     TaskResourceModel.UpdatedAt := TaskResourceModel.UpdatedAt plan |}.

Definition with_plan (plan : TaskResourceModel.t) (req : request.t TaskResourceModel.t)
  : request.t TaskResourceModel.t :=
  {| request.Config := request.Config req;
     request.Plan :=
       {| Get_diags := Get_diags (request.Plan req); Get_data := plan |};
     request.State := request.State req |}.

(** Two elements agree on every attribute but the id. *)
Definition same_attributes (a b : TaskDataSourceModel.t) : Prop :=
  TaskDataSourceModel.Title a = TaskDataSourceModel.Title b /\
  TaskDataSourceModel.Description a = TaskDataSourceModel.Description b /\
  TaskDataSourceModel.DueDate a = TaskDataSourceModel.DueDate b /\
  TaskDataSourceModel.Priority a = TaskDataSourceModel.Priority b /\
  TaskDataSourceModel.Status a = TaskDataSourceModel.Status b /\
  TaskDataSourceModel.CreatedAt a = TaskDataSourceModel.CreatedAt b /\
  TaskDataSourceModel.UpdatedAt a = TaskDataSourceModel.UpdatedAt b.

End Vocabulary.

Section MoreVocabulary.
Context `{Runtime}.

(** The error an operation of the client returns, if any. *)
Definition run_error (c : Client) (op : Operation) (w : World) : option error :=
  match op with
  | OpCreateTask title description dueDate priority =>
      match fst (CreateTask c title description dueDate priority w) with
      | inl err => Some err
      | inr _ => None
      end
  | OpGetTask id =>
      match fst (GetTask c id w) with inl err => Some err | inr _ => None end
  | OpUpdateTask id title description dueDate priority status =>
      match fst (UpdateTask c id title description dueDate priority status w) with
      | inl err => Some err
      | inr _ => None
      end
  | OpDeleteTask id => fst (DeleteTask c id w)
  | OpListTasks =>
      match fst (ListTasks c w) with inl err => Some err | inr _ => None end
  end.

(** The task an operation addresses, if it addresses one. *)
Definition op_id (op : Operation) : option Z :=
  match op with
  | OpGetTask id | OpDeleteTask id | OpUpdateTask id _ _ _ _ _ => Some id
  | OpCreateTask _ _ _ _ | OpListTasks => None
  end.

(** The call Update makes for a plan whose id parsed to [id]. *)
Definition update_call (r : TaskResource.t) (plan : TaskResourceModel.t) (id : Z)
  : M (error + Task) :=
  UpdateTask (TaskResource.client r) id
    (ValueString (TaskResourceModel.Title plan))
    (ValueString (TaskResourceModel.Description plan))
    (ValueString (TaskResourceModel.DueDate plan))
    (ValueString (TaskResourceModel.Priority plan))
    (ValueString (TaskResourceModel.Status plan)).

(** A state the host reads back as it was set: [Get] fills in the struct
    and returns no diagnostics. *)
Definition stored {T} (data : T) : tfsdk_Data T :=
  {| Get_diags := []; Get_data := data |}.

(** The request the host makes of Read for a stored state. *)
Definition refresh_of {T} (data : T) : request.t T :=
  {| request.Config := stored data;
     request.Plan := stored data;
     request.State := stored data |}.

(** A known value: neither null nor unknown. *)
Definition known (v : types_String) : Prop := exists s, v = StringValue s.

(** Every attribute but the id is known. *)
Definition refreshed (m : TaskResourceModel.t) : Prop :=
  known (TaskResourceModel.Title m) /\
  known (TaskResourceModel.Description m) /\
  known (TaskResourceModel.DueDate m) /\
  known (TaskResourceModel.Priority m) /\
  known (TaskResourceModel.Status m) /\
  known (TaskResourceModel.CreatedAt m) /\
  known (TaskResourceModel.UpdatedAt m).

(** What the single-task data source persists: the configured id, the
    rest from the task. *)
Definition looked_up_state (config : TaskDataSourceModel.t) (task : Task)
  : TaskDataSourceModel.t :=
  {| TaskDataSourceModel.ID := TaskDataSourceModel.ID config;
     TaskDataSourceModel.Title := StringValue (Title task);
     TaskDataSourceModel.Description := StringValue (Description task);
     TaskDataSourceModel.DueDate := StringValue (DueDate task);
     TaskDataSourceModel.Priority := StringValue (Priority task);
     TaskDataSourceModel.Status := StringValue (Status task);
     TaskDataSourceModel.CreatedAt :=
       StringValue (Time_Format (CreatedAt task) "2006-01-02T15:04:05Z07:00");
     TaskDataSourceModel.UpdatedAt :=
       StringValue (Time_Format (UpdatedAt task) "2006-01-02T15:04:05Z07:00") |}.

(** Every attribute is known, the id too. *)
Definition every_attribute_known (m : TaskResourceModel.t) : Prop :=
  known (TaskResourceModel.ID m) /\ refreshed m.

(** Two plans send the same strings to the server. *)
Definition same_strings (a b : TaskResourceModel.t) : Prop :=
  ValueString (TaskResourceModel.Title a) = ValueString (TaskResourceModel.Title b) /\
  ValueString (TaskResourceModel.Description a) =
    ValueString (TaskResourceModel.Description b) /\
  ValueString (TaskResourceModel.DueDate a) = ValueString (TaskResourceModel.DueDate b) /\
  ValueString (TaskResourceModel.Priority a) = ValueString (TaskResourceModel.Priority b).

End MoreVocabulary.

(** ** A concrete runtime

    A small runtime to run the provider on closed inputs: times are kept
    as their RFC 3339 text, the remote is a canned task API on
    [http://localhost:8080] that counts the requests it served,
    response bodies are decoded by name, and ids are scanned as Go's
    [fmt.Sscanf] scans them. *)

Module Fixture.

#[export] Instance time_lib : TimeLib :=
  {| Time := string; Time_Format := fun t _ => t |}.

Definition deploy : Task :=
  {| ID := 1; Title := "Deploy"; Description := "Deploy v2.0 release";
     DueDate := "2024-12-31"; Priority := "high"; Status := "pending";
     CreatedAt := "2024-01-01T10:00:00Z"; UpdatedAt := "2024-01-01T10:00:00Z" |}.

Definition testing : Task :=
  {| ID := 2; Title := "Run Integration Tests"; Description := "Test all endpoints";
     DueDate := "2026-02-22"; Priority := "medium"; Status := "pending";
     CreatedAt := "2024-01-02T09:30:00+01:00"; UpdatedAt := "2024-01-03T12:00:00+01:00" |}.

Definition marshal (m : gmap string string) : error + string :=
  inr (String.concat "&" (map (fun kv => fst kv ++ "=" ++ snd kv) (map_to_list m))).

Definition decode_task (body : string) : error + Task :=
  if String.eqb body "deploy" then inr deploy
  else inl "unexpected end of JSON input".

Definition decode_tasks (body : string) : error + list (option Task) :=
  if String.eqb body "deploy,testing" then inr [Some deploy; Some testing]
  else inl "unexpected end of JSON input".

Definition answer (status : Z) (body : string) : error + http_Response :=
  inr {| StatusCode := status; RespBody := body |}.

Definition serve (req : http_Request) : error + http_Response :=
  let base := "http://localhost:8080/api/v1" in
  if String.eqb (URL req) (base ++ "/tasks") then
    if String.eqb (Method req) "GET" then answer 200 "deploy,testing"
    else if String.eqb (Method req) "POST" then
      match Header req !! "X-API-Token" with
      | Some _ => answer 201 "deploy"
      | None => answer 401 "missing token"
      end
    else answer 405 "method not allowed"
  else if String.eqb (URL req) (base ++ "/tasks/1") then
    if String.eqb (Method req) "DELETE" then answer 204 EmptyString
    else answer 200 "deploy"
  else if String.eqb (URL req) (base ++ "/tasks/13") then
    answer 500 "internal error"
  else if String.eqb (URL req) (base ++ "/tasks/999999") then
    answer 404 "no such task"
  else inl "dial tcp: connection refused".

Definition scan (s : string) : error + Z := Sscanf_d_go s.

#[export] Instance runtime : Runtime :=
  {| json_Marshal := marshal;
     json_Decode_Task := decode_task;
     json_Decode_Tasks := decode_tasks;
     http_NewRequest_err := fun _ _ => None;
     Remote := nat;
     http_Do := fun _ req served => (serve req, S served);
     Sscanf_d := scan |}.

Definition api : Client := NewClient "http://localhost:8080" "secret".

Definition fresh : World := {| remote := 0%nat; wire := [] |}.

Definition sent (method path : string) (body : option string) : http_Request :=
  {| Method := method;
     URL := "http://localhost:8080/api/v1" ++ path;
     Header := {[ "Content-Type" := ["application/json"];
                  "X-API-Token" := ["secret"] ]};
     Body := body |}.

Definition after (req : http_Request) : World :=
  {| remote := 1%nat; wire := [req] |}.

Definition model (id title status : types_String) : TaskResourceModel.t :=
  {| TaskResourceModel.ID := id;
     TaskResourceModel.Title := title;
     TaskResourceModel.Description := StringNull;
     TaskResourceModel.DueDate := StringNull;
     TaskResourceModel.Priority := StringValue "high";
     TaskResourceModel.Status := status;
     TaskResourceModel.CreatedAt := StringUnknown;
     TaskResourceModel.UpdatedAt := StringUnknown |}.

Definition got {T} (data : T) : tfsdk_Data T :=
  {| Get_diags := []; Get_data := data |}.

Definition request_of {T} (data : T) : request.t T :=
  {| request.Config := got data; request.Plan := got data; request.State := got data |}.

Definition empty_response {T} : response.t T :=
  {| response.Diagnostics := []; response.State := None |}.

Definition resource : TaskResource.t := {| TaskResource.client := api |}.

Definition anonymous : Client := NewClient "http://localhost:8080" EmptyString.

Definition not_found_response : http_Response :=
  {| StatusCode := 404; RespBody := "no such task" |}.

Definition broken_response : http_Response :=
  {| StatusCode := 500; RespBody := "internal error" |}.

Definition plan_deploy (status : types_String) : request.t TaskResourceModel.t :=
  request_of (model StringUnknown (StringValue "Deploy") status).

Definition create_body : string :=
  "title=Deploy&due_date=&description=&priority=high".

Definition configure_request (host : types_String) : TaskMateProvider.ConfigureRequest :=
  {| TaskMateProvider.Config :=
       got {| TaskMateProviderModel.Host := host;
              TaskMateProviderModel.Token := StringValue "secret" |} |}.

Definition unconfigured : TaskMateProvider.ConfigureResponse :=
  {| TaskMateProvider.Diagnostics := [];
     TaskMateProvider.DataSourceData := None;
     TaskMateProvider.ResourceData := None |}.

Definition posted (body : string) : http_Request :=
  sent "POST" "/tasks" (Some body).

Definition update_body : string :=
  "status=completed&title=Deploy&due_date=&description=&priority=high".

Definition then_sent (first second : http_Request) : World :=
  {| remote := 2%nat; wire := [first; second] |}.

Definition conversion_error : Diagnostic :=
  NewErrorDiagnostic "Value Conversion Error" "An unexpected error was encountered.".

Definition unreadable {T} (data : T) : request.t T :=
  let failed := {| Get_diags := [conversion_error]; Get_data := data |} in
  {| request.Config := failed; request.Plan := failed; request.State := failed |}.

Definition elsewhere : Client := NewClient "http://tasks.invalid" "secret".

Definition lookup (id : string) : TaskDataSourceModel.t :=
  {| TaskDataSourceModel.ID := StringValue id;
     TaskDataSourceModel.Title := StringNull;
     TaskDataSourceModel.Description := StringNull;
     TaskDataSourceModel.DueDate := StringNull;
     TaskDataSourceModel.Priority := StringNull;
     TaskDataSourceModel.Status := StringNull;
     TaskDataSourceModel.CreatedAt := StringNull;
     TaskDataSourceModel.UpdatedAt := StringNull |}.

Definition listing : TasksDataSourceModel.t :=
  {| TasksDataSourceModel.Tasks := []; TasksDataSourceModel.ID := StringNull |}.

End Fixture.

(** ** A runtime where things go wrong

    The same libraries in front of a remote that misbehaves: it answers
    200 where 201 is due, sends bodies that do not decode and a task list
    with a null in it.  A URL that begins with a colon is rejected as
    [url.Parse] rejects it, for want of a protocol scheme, before anything
    is sent; that is the one refusal of [http.NewRequest] this runtime
    has, and every other URL passes. *)

Module Faulty.

#[export] Instance time_lib : TimeLib := Fixture.time_lib.

Definition decode_tasks (body : string) : error + list (option Task) :=
  if String.eqb body "deploy,null" then inr [Some Fixture.deploy; None]
  else inl "invalid character '<' looking for beginning of value".

Definition decode_task (body : string) : error + Task :=
  if String.eqb body "deploy" then inr Fixture.deploy
  else inl "invalid character '<' looking for beginning of value".

Definition new_request_err (method url : string) : option error :=
  if String.prefix ":" url then
    Some ("parse " ++ quote ++ url ++ quote ++ ": missing protocol scheme")
  else None.

Definition serve (req : http_Request) : error + http_Response :=
  let base := "http://localhost:8080/api/v1" in
  if String.eqb (URL req) (base ++ "/tasks") then
    if String.eqb (Method req) "POST" then Fixture.answer 200 "deploy"
    else Fixture.answer 200 "deploy,null"
  else if String.eqb (URL req) (base ++ "/tasks/1") then
    if String.eqb (Method req) "GET" then Fixture.answer 200 "<html>"
    else Fixture.answer 404 "no such task"
  else if String.eqb (URL req) (base ++ "/tasks/2") then
    Fixture.answer 503 "try later"
  else inl "dial tcp: connection refused".

#[export] Instance runtime : Runtime :=
  {| json_Marshal := Fixture.marshal;
     json_Decode_Task := decode_task;
     json_Decode_Tasks := decode_tasks;
     http_NewRequest_err := new_request_err;
     Remote := nat;
     http_Do := fun _ req served => (serve req, S served);
     Sscanf_d := Fixture.scan |}.

Definition fresh : World := {| remote := 0%nat; wire := [] |}.

Definition after (req : http_Request) : World :=
  {| remote := 1%nat; wire := [req] |}.

Definition no_scheme : Client := NewClient ":8080" "secret".

End Faulty.

(** ** Properties *)

Section Properties.
Context `{Runtime}.

(** *** Diagnostics *)

Lemma no_error_not_elem (diags : list Diagnostic) (d : Diagnostic) :
  Diagnostics_HasError diags = false -> is_error d = true -> d ∉ diags.
Proof.
  unfold Diagnostics_HasError. intros Hno Herr Hin.
  apply list_elem_of_In in Hin.
  assert (existsb is_error diags = true) as Hex.
  { apply existsb_exists. exists d. split; assumption. }
  congruence.
Qed.

Lemma AddError_fresh (diags : list Diagnostic) (summary detail : string) :
  Diagnostics_HasError diags = false ->
  Diagnostics_AddError diags summary detail =
  (diags ++ [NewErrorDiagnostic summary detail])%list.
Proof.
  intros Hno. unfold Diagnostics_AddError. cbn [Diagnostics_Append].
  rewrite bool_decide_eq_false_2; [reflexivity|].
  apply no_error_not_elem; [assumption | reflexivity].
Qed.

Lemma response_AddError_fresh {T} (resp : response.t T) (summary detail : string) :
  response.HasError resp = false ->
  response.AddError resp summary detail =
  {| response.Diagnostics :=
       (response.Diagnostics resp ++ [NewErrorDiagnostic summary detail])%list;
     response.State := response.State resp |}.
Proof.
  intros Hno. unfold response.AddError. f_equal. apply AddError_fresh. exact Hno.
Qed.

Lemma response_State_Set_eq {T} (resp : response.t T) (data : T) :
  response.State_Set resp data =
  {| response.Diagnostics := response.Diagnostics resp;
     response.State := Some data |}.
Proof. reflexivity. Qed.

(** *** makeRequest *)

Lemma Do_wire (hc : http_Client) (req : http_Request) (w : World) :
  wire (snd (Do hc req w)) = (wire w ++ [req])%list.
Proof. unfold Do. destruct (http_Do hc req (remote w)); reflexivity. Qed.

Lemma Do_result (hc : http_Client) (req : http_Request) (w : World) r w' :
  Do hc req w = (r, w') ->
  http_Do hc req (remote w) = (r, remote w') /\ wire w' = (wire w ++ [req])%list.
Proof.
  unfold Do. destruct (http_Do hc req (remote w)) as [r0 rem].
  intros [= <- <-]. split; reflexivity.
Qed.

(** [makeRequest] either fails before anything is sent, or sends exactly
    the [outgoing] request. *)
Lemma makeRequest_cases (c : Client) (method path : string)
    (body : option (gmap string string)) (w : World) :
  (exists err, makeRequest c method path body w = (inl err, w)) \/
  (exists bytes, marshals body bytes /\
     http_NewRequest_err method (Host c ++ "/api/v1" ++ path) = None /\
     makeRequest c method path body w =
       Do (client c) (outgoing c method path bytes) w).
Proof.
  unfold makeRequest, http_NewRequest, outgoing.
  destruct body as [b|].
  - destruct (json_Marshal b) as [err|bytes] eqn:Hm.
    + left. eexists. reflexivity.
    + destruct (http_NewRequest_err method _) as [err|] eqn:Hn.
      * left. eexists. reflexivity.
      * right. exists (Some bytes). split; [by constructor|]. split; [reflexivity|].
        cbn. destruct (String.eqb (Token c) EmptyString); reflexivity.
  - destruct (http_NewRequest_err method _) as [err|] eqn:Hn.
    + left. eexists. reflexivity.
    + right. exists None. split; [constructor|]. split; [reflexivity|].
      cbn. destruct (String.eqb (Token c) EmptyString); reflexivity.
Qed.

(** When marshalling succeeds and [http.NewRequest] accepts, the request
    does go out. *)
Lemma makeRequest_sends (c : Client) (method path : string)
    (body : option (gmap string string)) (bytes : option string) (w : World) :
  marshals body bytes ->
  http_NewRequest_err method (Host c ++ "/api/v1" ++ path) = None ->
  makeRequest c method path body w = Do (client c) (outgoing c method path bytes) w.
Proof.
  intros Hm Hn. unfold makeRequest, http_NewRequest, outgoing. rewrite Hn.
  destruct Hm as [|b bs Hb]; [|rewrite Hb]; cbn;
    destruct (String.eqb (Token c) EmptyString); reflexivity.
Qed.

(** A response can only come from a request that went out. *)
Lemma makeRequest_response (c : Client) (method path : string)
    (body : option (gmap string string)) (w w' : World) (resp : http_Response) :
  makeRequest c method path body w = (inr resp, w') ->
  exists bytes, marshals body bytes /\
    wire w' = (wire w ++ [outgoing c method path bytes])%list /\
    http_Do (client c) (outgoing c method path bytes) (remote w) = (inr resp, remote w').
Proof.
  intros Hreq. destruct (makeRequest_cases c method path body w)
    as [[err Hfail] | (bytes & Hm & _ & Hsent)].
  - rewrite Hfail in Hreq. discriminate.
  - rewrite Hsent in Hreq. apply Do_result in Hreq as [Hdo Hwire].
    exists bytes. repeat split; assumption.
Qed.

Lemma outgoing_content_type (c : Client) (method path : string) (body : option string) :
  Header (outgoing c method path body) !! "Content-Type" = Some ["application/json"].
Proof. unfold outgoing, Header_Set. cbn. apply lookup_insert_eq. Qed.

Lemma outgoing_token (c : Client) (method path : string) (body : option string) :
  Header (outgoing c method path body) !! "X-API-Token" =
  if String.eqb (Token c) EmptyString then None else Some [Token c].
Proof.
  unfold outgoing, Header_Set. cbn.
  rewrite lookup_insert_ne by discriminate.
  destruct (String.eqb (Token c) EmptyString).
  - apply lookup_empty.
  - apply lookup_insert_eq.
Qed.

(** What an operation does to the world is one [makeRequest]. *)
Lemma run_makeRequest (c : Client) (op : Operation) (w : World) :
  run c op w = snd (makeRequest c (spec_method op) (spec_path op) (spec_body op) w).
Proof.
  destruct op; cbn [run spec_method spec_path spec_body];
    unfold CreateTask, GetTask, UpdateTask, DeleteTask, ListTasks, bind, ret;
    destruct (makeRequest _ _ _ _ w) as [[err|resp] w1]; cbn; try reflexivity;
    repeat match goal with
           | |- context [if ?b then _ else _] => destruct b; cbn
           | |- context [match ?x with inl _ => _ | inr _ => _ end] => destruct x; cbn
           end; reflexivity.
Qed.

(** An operation leaves the world alone or adds one request to the wire. *)
Lemma run_cases (c : Client) (op : Operation) (w : World) :
  run c op w = w \/
  exists bytes, marshals (spec_body op) bytes /\
    wire (run c op w) =
      (wire w ++ [outgoing c (spec_method op) (spec_path op) bytes])%list.
Proof.
  rewrite run_makeRequest.
  destruct (makeRequest_cases c (spec_method op) (spec_path op) (spec_body op) w)
    as [[err Hfail] | (bytes & Hm & _ & Hsent)].
  - left. rewrite Hfail. reflexivity.
  - right. exists bytes. split; [exact Hm|]. rewrite Hsent. apply Do_wire.
Qed.

(** The request an operation added is the [outgoing] one. *)
Lemma run_sent (c : Client) (op : Operation) (w : World) (req : http_Request) :
  wire (run c op w) = (wire w ++ [req])%list ->
  exists bytes, marshals (spec_body op) bytes /\
    req = outgoing c (spec_method op) (spec_path op) bytes.
Proof.
  intros Hwire. destruct (run_cases c op w) as [Hsame | (bytes & Hm & Hout)].
  - rewrite Hsame in Hwire. apply (f_equal length) in Hwire.
    rewrite length_app in Hwire. cbn in Hwire. lia.
  - rewrite Hout in Hwire. apply app_inv_head in Hwire.
    exists bytes. split; [exact Hm|]. congruence.
Qed.

(** C2. For every operation of the client, the request it sends goes to
    the configured host followed by [/api/v1] and the operation's path;
    the token is on the [X-API-Token] header exactly when the configured
    token is not empty; and every operation other than a GET or a DELETE
    carries the marshalled JSON body with [Content-Type: application/json].
    The operation sends that one request whenever the body marshals and
    [http.NewRequest] accepts, and never more than one. *)
Theorem request_construction (c : Client) (op : Operation) (w : World) :
  (run c op w = w \/ exists req, wire (run c op w) = (wire w ++ [req])%list) /\
  (forall req, wire (run c op w) = (wire w ++ [req])%list ->
     Method req = spec_method op /\
     URL req = Host c ++ "/api/v1" ++ spec_path op /\
     (Header req !! "X-API-Token" = Some [Token c] <-> Token c <> EmptyString) /\
     (Token c = EmptyString -> Header req !! "X-API-Token" = None) /\
     (spec_method op <> "GET" -> spec_method op <> "DELETE" ->
        Header req !! "Content-Type" = Some ["application/json"] /\
        exists b bytes, spec_body op = Some b /\
          json_Marshal b = inr bytes /\ Body req = Some bytes)) /\
  (forall bytes, marshals (spec_body op) bytes ->
     http_NewRequest_err (spec_method op) (Host c ++ "/api/v1" ++ spec_path op) = None ->
     exists req, wire (run c op w) = (wire w ++ [req])%list).
Proof.
  split; [|split].
  - destruct (run_cases c op w) as [Hsame | (bytes & _ & Hout)]; [left|right]; eauto.
  - intros req Hwire. apply run_sent in Hwire as (bytes & Hm & ->).
    split; [reflexivity|]. split; [reflexivity|].
    rewrite outgoing_token, outgoing_content_type.
    destruct (String.eqb_spec (Token c) EmptyString) as [Heq|Hne].
    + split; [split; [discriminate | congruence]|]. split; [reflexivity|].
      intros Hget Hdel. split; [reflexivity|].
      destruct op; cbn in Hget, Hdel; try congruence;
        inversion Hm; subst; eauto.
    + split; [split; [auto | reflexivity]|]. split; [congruence|].
      intros Hget Hdel. split; [reflexivity|].
      destruct op; cbn in Hget, Hdel; try congruence;
        inversion Hm; subst; eauto.
  - intros bytes Hm Hn. rewrite run_makeRequest.
    rewrite (makeRequest_sends _ _ _ _ _ _ Hm Hn). eexists. apply Do_wire.
Qed.

(** C10. Every request the client builds carries
    [Content-Type: application/json], the GET and DELETE requests that
    have no body included, and carries the token on [X-API-Token] whenever
    the configured token is not empty, for the reads as for the writes.
    Such a request is built and sent: whenever the body marshals and
    [http.NewRequest] accepts the method and URL, the operation puts one
    request with these headers on the wire; a GET or a DELETE has no body
    to marshal, so it sends its request, with the headers and no body, as
    soon as [http.NewRequest] accepts. *)
Theorem every_request_headers (c : Client) (op : Operation) (w : World) :
  (forall req, wire (run c op w) = (wire w ++ [req])%list ->
     Header req !! "Content-Type" = Some ["application/json"] /\
     (Token c <> EmptyString -> Header req !! "X-API-Token" = Some [Token c]) /\
     (spec_method op = "GET" \/ spec_method op = "DELETE" -> Body req = None)) /\
  (forall bytes, marshals (spec_body op) bytes ->
     http_NewRequest_err (spec_method op) (Host c ++ "/api/v1" ++ spec_path op) = None ->
     exists req, wire (run c op w) = (wire w ++ [req])%list /\
       Header req !! "Content-Type" = Some ["application/json"] /\
       (Token c <> EmptyString -> Header req !! "X-API-Token" = Some [Token c]) /\
       Body req = bytes) /\
  (spec_method op = "GET" \/ spec_method op = "DELETE" ->
     http_NewRequest_err (spec_method op) (Host c ++ "/api/v1" ++ spec_path op) = None ->
     exists req, wire (run c op w) = (wire w ++ [req])%list /\
       Header req !! "Content-Type" = Some ["application/json"] /\
       (Token c <> EmptyString -> Header req !! "X-API-Token" = Some [Token c]) /\
       Body req = None).
Proof.
  assert (forall bytes, marshals (spec_body op) bytes ->
     http_NewRequest_err (spec_method op) (Host c ++ "/api/v1" ++ spec_path op) = None ->
     exists req, wire (run c op w) = (wire w ++ [req])%list /\
       Header req !! "Content-Type" = Some ["application/json"] /\
       (Token c <> EmptyString -> Header req !! "X-API-Token" = Some [Token c]) /\
       Body req = bytes) as Hsends.
  { intros bytes Hm Hn.
    exists (outgoing c (spec_method op) (spec_path op) bytes). split.
    - rewrite run_makeRequest, (makeRequest_sends _ _ _ _ _ _ Hm Hn). apply Do_wire.
    - split; [apply outgoing_content_type|]. split; [|reflexivity].
      intros Hne. rewrite outgoing_token.
      apply String.eqb_neq in Hne. rewrite Hne. reflexivity. }
  split; [|split].
  - intros req Hwire. apply run_sent in Hwire as (bytes & Hm & ->).
    split; [apply outgoing_content_type|]. split.
    + intros Hne. rewrite outgoing_token.
      apply String.eqb_neq in Hne. rewrite Hne. reflexivity.
    + intros Hmeth. destruct op; cbn in Hmeth; destruct Hmeth as [Hm'|Hm'];
        try discriminate Hm'; inversion Hm; reflexivity.
  - exact Hsends.
  - intros Hmeth Hn. apply Hsends; [|exact Hn].
    destruct op; cbn in Hmeth; destruct Hmeth as [Hm'|Hm'];
      try discriminate Hm'; constructor.
Qed.

(** *** The client's status-code contracts *)

(** C3. For every id, [GetTask] makes one call of [makeRequest], a GET
    to [/tasks/{id}] without a body, and returns its error if it has one.
    When the answer is HTTP 404 it returns the not-found error naming the
    id and no task; on any other status but 200 it returns the API error
    made of the raw response body and the status code, and no task; on 200
    it returns the task the body decodes into, with no error. *)
Theorem GetTask_contract (c : Client) (id : Z) (w : World) :
  let call := makeRequest c "GET" ("/tasks/" ++ Sprintf_d id) None in
  snd (GetTask c id w) = snd (call w) /\
  (forall err w', call w = (inl err, w') -> GetTask c id w = (inl err, w')) /\
  forall resp w', call w = (inr resp, w') ->
    (exists req,
        wire w' = (wire w ++ [req])%list /\
        Method req = "GET" /\
        URL req = Host c ++ "/api/v1" ++ "/tasks/" ++ Sprintf_d id /\
        Body req = None /\
        http_Do (client c) req (remote w) = (inr resp, remote w')) /\
    (StatusCode resp = 404 ->
       GetTask c id w = (inl ("task with ID " ++ Sprintf_d id ++ " not found"), w')) /\
    (StatusCode resp <> 404 -> StatusCode resp <> 200 ->
       GetTask c id w =
         (inl ("API error: " ++ RespBody resp ++
               " (status: " ++ Sprintf_d (StatusCode resp) ++ ")"), w')) /\
    (StatusCode resp = 200 ->
       forall task, json_Decode_Task (RespBody resp) = inr task ->
         GetTask c id w = (inr task, w')).
Proof.
  intros call. split; [|split].
  - exact (run_makeRequest c (OpGetTask id) w).
  - intros err w' Hreq. unfold GetTask, bind, ret. fold call. rewrite Hreq.
    reflexivity.
  - intros resp w' Hreq. split.
    { destruct (makeRequest_response _ _ _ _ _ _ _ Hreq) as (bytes & Hm & Hwire & Hdo).
      inversion Hm; subst.
      exists (outgoing c "GET" ("/tasks/" ++ Sprintf_d id) None).
      repeat split; assumption. }
    unfold GetTask, bind, ret. fold call. rewrite Hreq.
    unfold http_StatusNotFound, http_StatusOK, api_error, not_found.
    repeat split.
    + intros ->. reflexivity.
    + intros Hne404 Hne200.
      apply Z.eqb_neq in Hne404, Hne200. rewrite Hne404, Hne200. reflexivity.
    + intros Hok task Hdec. rewrite Hok. cbn. rewrite Hdec. reflexivity.
Qed.

(** C6. For every id, [DeleteTask] makes one call of [makeRequest], a
    DELETE to [/tasks/{id}] without a body, and returns its error if it
    has one.  HTTP 404 gives the not-found error, HTTP 204 gives no error
    (and there is no value to return), and any other status gives the API
    error made of the raw response body and the status code. *)
Theorem DeleteTask_contract (c : Client) (id : Z) (w : World) :
  let call := makeRequest c "DELETE" ("/tasks/" ++ Sprintf_d id) None in
  snd (DeleteTask c id w) = snd (call w) /\
  (forall err w', call w = (inl err, w') -> DeleteTask c id w = (Some err, w')) /\
  forall resp w', call w = (inr resp, w') ->
    (exists req,
        wire w' = (wire w ++ [req])%list /\
        Method req = "DELETE" /\
        URL req = Host c ++ "/api/v1" ++ "/tasks/" ++ Sprintf_d id /\
        Body req = None /\
        http_Do (client c) req (remote w) = (inr resp, remote w')) /\
    (StatusCode resp = 404 ->
       DeleteTask c id w = (Some ("task with ID " ++ Sprintf_d id ++ " not found"), w')) /\
    (StatusCode resp = 204 -> DeleteTask c id w = (None, w')) /\
    (StatusCode resp <> 404 -> StatusCode resp <> 204 ->
       DeleteTask c id w =
         (Some ("API error: " ++ RespBody resp ++
                " (status: " ++ Sprintf_d (StatusCode resp) ++ ")"), w')).
Proof.
  intros call. split; [|split].
  - exact (run_makeRequest c (OpDeleteTask id) w).
  - intros err w' Hreq. unfold DeleteTask, bind, ret. fold call. rewrite Hreq.
    reflexivity.
  - intros resp w' Hreq. split.
    { destruct (makeRequest_response _ _ _ _ _ _ _ Hreq) as (bytes & Hm & Hwire & Hdo).
      inversion Hm; subst.
      exists (outgoing c "DELETE" ("/tasks/" ++ Sprintf_d id) None).
      repeat split; assumption. }
    unfold DeleteTask, bind, ret. fold call. rewrite Hreq.
    unfold http_StatusNotFound, http_StatusNoContent, api_error, not_found.
    repeat split.
    + intros ->. reflexivity.
    + intros ->. reflexivity.
    + intros Hne404 Hne204.
      apply Z.eqb_neq in Hne404, Hne204. rewrite Hne404, Hne204. reflexivity.
Qed.

(** *** The managed resource *)

Lemma proceeds_HasError {T} (resp : response.t T) (src : tfsdk_Data T) :
  proceeds resp src ->
  response.HasError (response.Append resp (Get_diags src)) = false.
Proof. intros Hp. exact Hp. Qed.

(** *** [fmt.Sscanf] on the text of an integer *)













Lemma Create_unfold (r : TaskResource.t) (req : request.t TaskResourceModel.t)
    (resp : response.t TaskResourceModel.t) (w : World) :
  proceeds resp (request.Plan req) ->
  TaskResource_Create r req resp w =
  match create_call r (Get_data (request.Plan req)) w with
  | (inl err, w') =>
      (client_failure resp (Get_diags (request.Plan req)) "create" err, w')
  | (inr task, w') =>
      ({| response.Diagnostics :=
            Diagnostics_Append (response.Diagnostics resp)
              (Get_diags (request.Plan req));
          response.State := Some (created_state task) |}, w')
  end.
Proof.
  intros Hp. pose proof (proceeds_HasError _ _ Hp) as Ep.
  unfold TaskResource_Create, create_call. rewrite Ep. unfold bind, ret.
  destruct (CreateTask _ _ _ _ _ w) as [[err|task] w'].
  - rewrite (response_AddError_fresh _ _ _ Ep). reflexivity.
  - reflexivity.
Qed.

(** C4. Whenever the client's [CreateTask] returns an error, Create adds
    the client error diagnostic and returns with the state of the response
    as it found it; Create changes the state only when [CreateTask]
    succeeded, to the attributes of the returned task. *)
Theorem Create_error_writes_no_state (r : TaskResource.t)
    (req : request.t TaskResourceModel.t) (resp : response.t TaskResourceModel.t)
    (w : World) :
  let plan := Get_data (request.Plan req) in
  (proceeds resp (request.Plan req) ->
   forall err w', create_call r plan w = (inl err, w') ->
     TaskResource_Create r req resp w =
       (client_failure resp (Get_diags (request.Plan req)) "create" err, w') /\
     response.State (fst (TaskResource_Create r req resp w)) = response.State resp /\
     response.HasError (fst (TaskResource_Create r req resp w)) = true) /\
  (response.State (fst (TaskResource_Create r req resp w)) <> response.State resp ->
   proceeds resp (request.Plan req) /\
   exists task w', create_call r plan w = (inr task, w') /\
     response.State (fst (TaskResource_Create r req resp w)) = Some (created_state task)).
Proof.
  intros plan. split.
  - intros Hp err w' Hcall.
    rewrite (Create_unfold _ _ _ _ Hp). fold plan. rewrite Hcall.
    split; [reflexivity|]. split; [reflexivity|].
    unfold response.HasError, client_failure, Diagnostics_HasError. cbn.
    rewrite existsb_app. cbn. apply orb_true_r.
  - intros Hchanged.
    destruct (Diagnostics_HasError
                (Diagnostics_Append (response.Diagnostics resp)
                   (Get_diags (request.Plan req)))) eqn:Hp.
    + exfalso. apply Hchanged. unfold TaskResource_Create.
      change (response.HasError (response.Append resp (Get_diags (request.Plan req))))
        with (Diagnostics_HasError
                (Diagnostics_Append (response.Diagnostics resp)
                   (Get_diags (request.Plan req)))).
      rewrite Hp. reflexivity.
    + split; [exact Hp|].
      rewrite (Create_unfold _ _ _ _ Hp) in *. fold plan in Hchanged |- *.
      destruct (create_call r plan w) as [[err|task] w'].
      * exfalso. apply Hchanged. reflexivity.
      * exists task, w'. split; reflexivity.
Qed.

Lemma Read_unfold (r : TaskResource.t) (req : request.t TaskResourceModel.t)
    (resp : response.t TaskResourceModel.t) (w : World) (id : Z) :
  proceeds resp (request.State req) ->
  Sscanf_d (ValueString (TaskResourceModel.ID (Get_data (request.State req)))) = inr id ->
  TaskResource_Read r req resp w =
  match GetTask (TaskResource.client r) id w with
  | (inl err, w') =>
      (client_failure resp (Get_diags (request.State req)) "read" err, w')
  | (inr task, w') =>
      ({| response.Diagnostics :=
            Diagnostics_Append (response.Diagnostics resp)
              (Get_diags (request.State req));
          response.State :=
            Some (refreshed_state (Get_data (request.State req)) task) |}, w')
  end.
Proof.
  intros Hp Hid. pose proof (proceeds_HasError _ _ Hp) as Ep.
  unfold TaskResource_Read. rewrite Ep, Hid. unfold bind, ret.
  destruct (GetTask _ id w) as [[err|task] w'].
  - rewrite (response_AddError_fresh _ _ _ Ep). reflexivity.
  - reflexivity.
Qed.

(** C5. When Read succeeds, the state it persists has title, description,
    due_date, priority, status, created_at and updated_at taken from the
    task [GetTask] returned, and the id of the prior state.  An HTTP 404
    is reported as the client error diagnostic, as any other error of
    [GetTask] is, and the state of the response stays what it was: the
    resource is not removed. *)
Theorem Read_refreshes_all_but_id (r : TaskResource.t)
    (req : request.t TaskResourceModel.t) (resp : response.t TaskResourceModel.t)
    (w : World) (id : Z) :
  let prior := Get_data (request.State req) in
  let c := TaskResource.client r in
  proceeds resp (request.State req) ->
  Sscanf_d (ValueString (TaskResourceModel.ID prior)) = inr id ->
  (forall task w', GetTask c id w = (inr task, w') ->
     exists persisted,
       TaskResource_Read r req resp w =
         ({| response.Diagnostics :=
               Diagnostics_Append (response.Diagnostics resp)
                 (Get_diags (request.State req));
             response.State := Some persisted |}, w') /\
       TaskResourceModel.ID persisted = TaskResourceModel.ID prior /\
       TaskResourceModel.Title persisted = StringValue (Title task) /\
       TaskResourceModel.Description persisted = StringValue (Description task) /\
       TaskResourceModel.DueDate persisted = StringValue (DueDate task) /\
       TaskResourceModel.Priority persisted = StringValue (Priority task) /\
       TaskResourceModel.Status persisted = StringValue (Status task) /\
       TaskResourceModel.CreatedAt persisted =
         StringValue (Time_Format (CreatedAt task) "2006-01-02T15:04:05Z07:00") /\
       TaskResourceModel.UpdatedAt persisted =
         StringValue (Time_Format (UpdatedAt task) "2006-01-02T15:04:05Z07:00")) /\
  (forall err w', GetTask c id w = (inl err, w') ->
     TaskResource_Read r req resp w =
       (client_failure resp (Get_diags (request.State req)) "read" err, w') /\
     response.State (fst (TaskResource_Read r req resp w)) = response.State resp) /\
  (forall hresp w',
     makeRequest c "GET" ("/tasks/" ++ Sprintf_d id) None w = (inr hresp, w') ->
     StatusCode hresp = 404 ->
     TaskResource_Read r req resp w =
       (client_failure resp (Get_diags (request.State req)) "read"
          ("task with ID " ++ Sprintf_d id ++ " not found"), w') /\
     response.State (fst (TaskResource_Read r req resp w)) = response.State resp).
Proof.
  intros prior c Hp Hid.
  pose proof (Read_unfold r req resp w id Hp Hid) as Hread. fold c in Hread.
  split; [|split].
  - intros task w' Hget. rewrite Hget in Hread.
    exists (refreshed_state prior task). split; [exact Hread|].
    repeat split; reflexivity.
  - intros err w' Hget. rewrite Hget in Hread. rewrite Hread.
    split; reflexivity.
  - intros hresp w' Hreq H404.
    assert (GetTask c id w = (inl (not_found id), w')) as Hget.
    { unfold GetTask, bind, ret. rewrite Hreq. unfold http_StatusNotFound.
      rewrite H404. reflexivity. }
    rewrite Hget in Hread. rewrite Hread. split; reflexivity.
Qed.

(** Create touches the world through its [CreateTask] call only. *)
Lemma Create_world (r : TaskResource.t) (req : request.t TaskResourceModel.t)
    (resp : response.t TaskResourceModel.t) (w : World) :
  snd (TaskResource_Create r req resp w) = w \/
  snd (TaskResource_Create r req resp w) = snd (create_call r (Get_data (request.Plan req)) w).
Proof.
  unfold TaskResource_Create, create_call.
  destruct (response.HasError _); [left; reflexivity | right].
  unfold bind, ret. destruct (CreateTask _ _ _ _ _ w) as [[err|task] w']; reflexivity.
Qed.

(** C9. Create never transmits the plan's status.  Whatever status the
    plan holds, Create sends the same request and returns the same
    response; the body of the request it sends is the marshalled map of
    exactly title, description, due_date and priority, taken from the
    plan; and the status it persists is the one of the task the server
    answered with. *)
Theorem Create_ignores_plan_status (r : TaskResource.t)
    (req : request.t TaskResourceModel.t) (resp : response.t TaskResourceModel.t)
    (w : World) :
  let plan := Get_data (request.Plan req) in
  (forall s,
     TaskResource_Create r (with_plan (with_status s plan) req) resp w =
     TaskResource_Create r req resp w) /\
  (forall hreq, wire (snd (TaskResource_Create r req resp w)) = (wire w ++ [hreq])%list ->
     exists (body : gmap string string) bytes,
       Body hreq = Some bytes /\ json_Marshal body = inr bytes /\
       dom body = ({[ "title"; "description"; "due_date"; "priority" ]} : gset string) /\
       body !! "title" = Some (ValueString (TaskResourceModel.Title plan)) /\
       body !! "description" = Some (ValueString (TaskResourceModel.Description plan)) /\
       body !! "due_date" = Some (ValueString (TaskResourceModel.DueDate plan)) /\
       body !! "priority" = Some (ValueString (TaskResourceModel.Priority plan)) /\
       body !! "status" = None) /\
  (proceeds resp (request.Plan req) ->
   forall task w', create_call r plan w = (inr task, w') ->
     exists persisted,
       response.State (fst (TaskResource_Create r req resp w)) = Some persisted /\
       TaskResourceModel.Status persisted = StringValue (Status task)).
Proof.
  intros plan. split; [|split].
  - intros s. reflexivity.
  - intros hreq Hwire.
    destruct (Create_world r req resp w) as [Hsame | Hcall].
    { rewrite Hsame in Hwire. apply (f_equal length) in Hwire.
      rewrite length_app in Hwire. cbn in Hwire. lia. }
    rewrite Hcall in Hwire. fold plan in Hwire. unfold create_call in Hwire.
    change (snd (CreateTask ?c ?t ?d ?dd ?p w))
      with (run c (OpCreateTask t d dd p) w) in Hwire.
    apply run_sent in Hwire as (bytes & Hm & ->).
    cbn [spec_body] in Hm. inversion Hm as [|b bs Hb]; subst.
    eexists _, bs. split; [reflexivity|]. split; [exact Hb|].
    split; [|split; [|split; [|split; [|split]]]].
    + rewrite !dom_insert_L, dom_singleton_L. set_solver.
    + apply lookup_insert_eq.
    + rewrite lookup_insert_ne by discriminate. apply lookup_insert_eq.
    + rewrite !lookup_insert_ne by discriminate. apply lookup_insert_eq.
    + rewrite !lookup_insert_ne by discriminate. apply lookup_singleton_eq.
    + rewrite !lookup_insert_ne by discriminate. apply lookup_singleton_ne.
      discriminate.
  - intros Hp task w' Hcall.
    rewrite (Create_unfold _ _ _ _ Hp). fold plan. rewrite Hcall.
    exists (created_state task). split; reflexivity.
Qed.

(** *** The task-list data source *)

(** The loop fills the slice from index [length done] on. *)
Lemma convert_tasks_fills (ts : list Task) (done : list TaskDataSourceModel.t) :
  convert_tasks (length done) (Some <$> ts)
    (done ++ replicate (length ts) TaskDataSourceModel.zero)%list =
  Returned (done ++ (task_element <$> ts))%list.
Proof.
  revert done. induction ts as [|task ts IH]; intros done.
  - reflexivity.
  - cbn [fmap list_fmap convert_tasks length replicate].
    rewrite insert_app_r_alt by lia. rewrite Nat.sub_diag. cbn [list_insert].
    specialize (IH (done ++ [task_element task])%list).
    rewrite length_app, Nat.add_1_r, <- !app_assoc in IH. exact IH.
Qed.

Lemma convert_tasks_all (ts : list Task) :
  convert_tasks 0 (Some <$> ts)
    (replicate (length (Some <$> ts)) TaskDataSourceModel.zero) =
  Returned (task_element <$> ts).
Proof. rewrite length_fmap. exact (convert_tasks_fills ts []). Qed.

(** A nil task makes the loop panic. *)
Lemma convert_tasks_nil (i : nat) (ts : list Task) (rest : list (option Task))
    (out : list TaskDataSourceModel.t) :
  convert_tasks i ((Some <$> ts) ++ None :: rest)%list out = Panicked.
Proof.
  revert i out. induction ts as [|task ts IH]; intros i out; [reflexivity|].
  cbn. apply IH.
Qed.

(** Read of the task-list data source does not survive a nil task. *)
Lemma TasksDataSource_Read_nil_task (d : TasksDataSource.t)
    (req : request.t TasksDataSourceModel.t)
    (resp : response.t TasksDataSourceModel.t) (w w' : World)
    (ts : list Task) (rest : list (option Task)) :
  proceeds resp (request.Config req) ->
  ListTasks (TasksDataSource.client d) w = (inr ((Some <$> ts) ++ None :: rest)%list, w') ->
  TasksDataSource_Read d req resp w = (Panicked, w').
Proof.
  intros Hp Hlist. pose proof (proceeds_HasError _ _ Hp) as Ep.
  unfold TasksDataSource_Read. rewrite Ep. unfold bind, ret. rewrite Hlist.
  rewrite convert_tasks_nil. reflexivity.
Qed.

(** What the single-task data source persists for a task. *)
Lemma TaskDataSource_Read_success (d : TaskDataSource.t)
    (req : request.t TaskDataSourceModel.t) (resp : response.t TaskDataSourceModel.t)
    (w w' : World) (id : Z) (task : Task) :
  proceeds resp (request.Config req) ->
  Sscanf_d (ValueString (TaskDataSourceModel.ID (Get_data (request.Config req)))) = inr id ->
  GetTask (TaskDataSource.client d) id w = (inr task, w') ->
  exists single,
    response.State (fst (TaskDataSource_Read d req resp w)) = Some single /\
    same_attributes (task_element task) single.
Proof.
  intros Hp Hid Hget. pose proof (proceeds_HasError _ _ Hp) as Ep.
  unfold TaskDataSource_Read. rewrite Ep, Hid. unfold bind, ret. rewrite Hget.
  eexists. split; [reflexivity|]. repeat split; reflexivity.
Qed.

(** X24. When [ListTasks] succeeded with a list that has no nil element,
    Read of the task-list data source persists one element per task, in
    the order [ListTasks] returned them and as many as there are: the id
    printed in decimal, the strings as they are, the two timestamps
    formatted with the layout [2006-01-02T15:04:05Z07:00], which are the
    attributes the single-task data source persists for that task.  The
    data source's own id is the constant [tasks]. *)
Theorem TasksDataSource_Read_maps_in_order (d : TasksDataSource.t)
    (req : request.t TasksDataSourceModel.t)
    (resp : response.t TasksDataSourceModel.t) (w w' : World) (ts : list Task) :
  proceeds resp (request.Config req) ->
  ListTasks (TasksDataSource.client d) w = (inr (Some <$> ts), w') ->
  exists out,
    TasksDataSource_Read d req resp w =
      (Returned
         {| response.Diagnostics :=
              Diagnostics_Append (response.Diagnostics resp)
                (Get_diags (request.Config req));
            response.State :=
              Some {| TasksDataSourceModel.Tasks := out;
                      TasksDataSourceModel.ID := StringValue "tasks" |} |}, w') /\
    length out = length ts /\
    forall (i : nat) (task : Task), ts !! i = Some task ->
      exists e, out !! i = Some e /\
        TaskDataSourceModel.ID e = StringValue (Sprintf_d (ID task)) /\
        TaskDataSourceModel.Title e = StringValue (Title task) /\
        TaskDataSourceModel.Description e = StringValue (Description task) /\
        TaskDataSourceModel.DueDate e = StringValue (DueDate task) /\
        TaskDataSourceModel.Priority e = StringValue (Priority task) /\
        TaskDataSourceModel.Status e = StringValue (Status task) /\
        TaskDataSourceModel.CreatedAt e =
          StringValue (Time_Format (CreatedAt task) "2006-01-02T15:04:05Z07:00") /\
        TaskDataSourceModel.UpdatedAt e =
          StringValue (Time_Format (UpdatedAt task) "2006-01-02T15:04:05Z07:00") /\
        forall (d1 : TaskDataSource.t) (req1 : request.t TaskDataSourceModel.t)
               (resp1 : response.t TaskDataSourceModel.t) (w1 w1' : World) (id : Z),
          proceeds resp1 (request.Config req1) ->
          Sscanf_d (ValueString
                      (TaskDataSourceModel.ID (Get_data (request.Config req1)))) = inr id ->
          GetTask (TaskDataSource.client d1) id w1 = (inr task, w1') ->
          exists single,
            response.State (fst (TaskDataSource_Read d1 req1 resp1 w1)) = Some single /\
            same_attributes e single.
Proof.
  intros Hp Hlist. pose proof (proceeds_HasError _ _ Hp) as Ep.
  exists (task_element <$> ts). split; [|split].
  - unfold TasksDataSource_Read. rewrite Ep. unfold bind, ret. rewrite Hlist.
    rewrite convert_tasks_all. reflexivity.
  - apply length_fmap.
  - intros i task Hi. exists (task_element task). split.
    + rewrite list_lookup_fmap, Hi. reflexivity.
    + do 8 (split; [reflexivity|]).
      intros d1 req1 resp1 w1 w1' id. apply TaskDataSource_Read_success.
Qed.

(** *** The provider's Configure *)

(** C8. When the configured host is unset or the empty string, Configure
    builds the shared client with the host [http://localhost:8080]; a
    host that is not empty is the client's host as it is written. *)
Theorem Configure_host_default (p : TaskMateProvider.t)
    (req : TaskMateProvider.ConfigureRequest)
    (resp : TaskMateProvider.ConfigureResponse) :
  let data := Get_data (TaskMateProvider.Config req) in
  let token := ValueString (TaskMateProviderModel.Token data) in
  let resp' := TaskMateProvider.Configure p req resp in
  Diagnostics_HasError
    (Diagnostics_Append (TaskMateProvider.Diagnostics resp)
       (Get_diags (TaskMateProvider.Config req))) = false ->
  (TaskMateProviderModel.Host data = StringNull \/
   TaskMateProviderModel.Host data = StringValue EmptyString ->
     TaskMateProvider.ResourceData resp' = Some (NewClient "http://localhost:8080" token) /\
     TaskMateProvider.DataSourceData resp' = Some (NewClient "http://localhost:8080" token)) /\
  (forall host, TaskMateProviderModel.Host data = StringValue host ->
     host <> EmptyString ->
     TaskMateProvider.ResourceData resp' = Some (NewClient host token) /\
     TaskMateProvider.DataSourceData resp' = Some (NewClient host token) /\
     Host (NewClient host token) = host).
Proof.
  intros data token resp' Hok. subst resp'. unfold TaskMateProvider.Configure.
  cbn [TaskMateProvider.Diagnostics]. rewrite Hok. fold data. fold token.
  split.
  - intros [Hnull | Hempty]; [rewrite Hnull | rewrite Hempty]; split; reflexivity.
  - intros host Hhost Hne. rewrite Hhost. cbn [ValueString].
    apply String.eqb_neq in Hne. rewrite Hne. repeat split; reflexivity.
Qed.

End Properties.

(** ** Further properties of the client and the adapters *)

Section Further.
Context `{Runtime}.

(** *** The client *)

(** X1. [CreateTask] is one POST to [/tasks] with the marshalled map of
    title, description, due_date and priority.  Only HTTP 201 is a
    success: any other status, 200 included, gives the API error with the
    raw body and the status; on 201 the task is the decoded body, and a
    body that does not decode gives the wrapped decode error. *)
Theorem CreateTask_contract (c : Client) (title description dueDate priority : string)
    (w : World) :
  let body : gmap string string :=
    {[ "title" := title; "description" := description;
       "due_date" := dueDate; "priority" := priority ]} in
  let call := makeRequest c "POST" "/tasks" (Some body) in
  let result := CreateTask c title description dueDate priority w in
  (forall err w', call w = (inl err, w') -> result = (inl err, w')) /\
  forall resp w', call w = (inr resp, w') ->
    (exists req bytes,
        wire w' = (wire w ++ [req])%list /\
        Method req = "POST" /\
        URL req = Host c ++ "/api/v1" ++ "/tasks" /\
        json_Marshal body = inr bytes /\
        Body req = Some bytes) /\
    (StatusCode resp <> 201 ->
       result =
         (inl ("API error: " ++ RespBody resp ++
               " (status: " ++ Sprintf_d (StatusCode resp) ++ ")"), w')) /\
    (StatusCode resp = 201 ->
       (forall task, json_Decode_Task (RespBody resp) = inr task ->
          result = (inr task, w')) /\
       (forall err, json_Decode_Task (RespBody resp) = inl err ->
          result = (inl ("failed to decode response: " ++ err), w'))).
Proof.
  intros body call result. subst result. split.
  - intros err w' Hreq. unfold CreateTask, bind, ret. fold body. fold call.
    rewrite Hreq. reflexivity.
  - intros resp w' Hreq. split.
    { destruct (makeRequest_response _ _ _ _ _ _ _ Hreq) as (bytes & Hm & Hwire & _).
      inversion Hm as [|b bs Hb]; subst.
      exists (outgoing c "POST" "/tasks" (Some bs)), bs.
      repeat split; assumption. }
    unfold CreateTask, bind, ret. fold body. fold call. rewrite Hreq.
    unfold http_StatusCreated, api_error, decode_error. split.
    + intros Hne. apply Z.eqb_neq in Hne. rewrite Hne. reflexivity.
    + intros ->. cbn. split.
      * intros task ->. reflexivity.
      * intros err ->. reflexivity.
Qed.

(** X2. [UpdateTask] is one PUT to [/tasks/{id}] whose body is the
    marshalled map of title, description, due_date, priority and status.
    HTTP 404 gives the not-found error naming the id, any other status but
    200 the API error with the raw body and the status; on 200 the task is
    the decoded body, or the wrapped decode error. *)
Theorem UpdateTask_contract (c : Client) (id : Z)
    (title description dueDate priority status : string) (w : World) :
  let body : gmap string string :=
    {[ "title" := title; "description" := description;
       "due_date" := dueDate; "priority" := priority; "status" := status ]} in
  let call := makeRequest c "PUT" ("/tasks/" ++ Sprintf_d id) (Some body) in
  let result := UpdateTask c id title description dueDate priority status w in
  (forall err w', call w = (inl err, w') -> result = (inl err, w')) /\
  forall resp w', call w = (inr resp, w') ->
    (exists req bytes,
        wire w' = (wire w ++ [req])%list /\
        Method req = "PUT" /\
        URL req = Host c ++ "/api/v1" ++ "/tasks/" ++ Sprintf_d id /\
        json_Marshal body = inr bytes /\
        Body req = Some bytes /\
        dom body =
          ({[ "title"; "description"; "due_date"; "priority"; "status" ]} : gset string) /\
        body !! "status" = Some status) /\
    (StatusCode resp = 404 ->
       result = (inl ("task with ID " ++ Sprintf_d id ++ " not found"), w')) /\
    (StatusCode resp <> 404 -> StatusCode resp <> 200 ->
       result =
         (inl ("API error: " ++ RespBody resp ++
               " (status: " ++ Sprintf_d (StatusCode resp) ++ ")"), w')) /\
    (StatusCode resp = 200 ->
       (forall task, json_Decode_Task (RespBody resp) = inr task ->
          result = (inr task, w')) /\
       (forall err, json_Decode_Task (RespBody resp) = inl err ->
          result = (inl ("failed to decode response: " ++ err), w'))).
Proof.
  intros body call result. subst result. split.
  - intros err w' Hreq. unfold UpdateTask, bind, ret. fold body. fold call.
    rewrite Hreq. reflexivity.
  - intros resp w' Hreq. split.
    { destruct (makeRequest_response _ _ _ _ _ _ _ Hreq) as (bytes & Hm & Hwire & _).
      inversion Hm as [|b bs Hb]; subst.
      exists (outgoing c "PUT" ("/tasks/" ++ Sprintf_d id) (Some bs)), bs.
      split; [exact Hwire|]. split; [reflexivity|]. split; [reflexivity|].
      split; [exact Hb|]. split; [reflexivity|]. split.
      - subst body. rewrite !dom_insert_L, dom_singleton_L. set_solver.
      - subst body. rewrite !lookup_insert_ne by discriminate.
        apply lookup_singleton_eq. }
    unfold UpdateTask, bind, ret. fold body. fold call. rewrite Hreq.
    unfold http_StatusNotFound, http_StatusOK, api_error, not_found, decode_error.
    split; [|split].
    + intros ->. reflexivity.
    + intros Hne404 Hne200.
      apply Z.eqb_neq in Hne404, Hne200. rewrite Hne404, Hne200. reflexivity.
    + intros ->. cbn. split.
      * intros task ->. reflexivity.
      * intros err ->. reflexivity.
Qed.

(** X3. [ListTasks] is one GET to [/tasks] without a body.  Any status
    but 200 gives the API error with the raw body and the status, a 404
    like the others: there is no not-found error for the list.  On 200
    the result is the decoded list, or the wrapped decode error. *)
Theorem ListTasks_contract (c : Client) (w : World) :
  let call := makeRequest c "GET" "/tasks" None in
  (forall err w', call w = (inl err, w') -> ListTasks c w = (inl err, w')) /\
  forall resp w', call w = (inr resp, w') ->
    (exists req,
        wire w' = (wire w ++ [req])%list /\
        Method req = "GET" /\
        URL req = Host c ++ "/api/v1" ++ "/tasks" /\
        Body req = None) /\
    (StatusCode resp <> 200 ->
       ListTasks c w =
         (inl ("API error: " ++ RespBody resp ++
               " (status: " ++ Sprintf_d (StatusCode resp) ++ ")"), w')) /\
    (StatusCode resp = 200 ->
       (forall tasks, json_Decode_Tasks (RespBody resp) = inr tasks ->
          ListTasks c w = (inr tasks, w')) /\
       (forall err, json_Decode_Tasks (RespBody resp) = inl err ->
          ListTasks c w = (inl ("failed to decode response: " ++ err), w'))).
Proof.
  intros call. split.
  - intros err w' Hreq. unfold ListTasks, bind, ret. fold call.
    rewrite Hreq. reflexivity.
  - intros resp w' Hreq. split.
    { destruct (makeRequest_response _ _ _ _ _ _ _ Hreq) as (bytes & Hm & Hwire & _).
      inversion Hm; subst.
      exists (outgoing c "GET" "/tasks" None). repeat split; assumption. }
    unfold ListTasks, bind, ret. fold call. rewrite Hreq.
    unfold http_StatusOK, api_error, decode_error. split.
    + intros Hne. apply Z.eqb_neq in Hne. rewrite Hne. reflexivity.
    + intros ->. cbn. split.
      * intros tasks ->. reflexivity.
      * intros err ->. reflexivity.
Qed.

(** X4. When [http.NewRequest] rejects the method and URL of an
    operation, as it does for a host that leaves no scheme before its
    colon, the operation returns that error wrapped as
    [failed to create request] and leaves the world as it was: nothing is
    sent and the remote is not reached.  [makeRequest] itself behaves so
    for every method, path and body that marshals. *)
Theorem request_creation_failure_sends_nothing (c : Client) (w : World) (err : error) :
  (forall method path body bytes, marshals body bytes ->
     http_NewRequest_err method (Host c ++ "/api/v1" ++ path) = Some err ->
     makeRequest c method path body w = (inl (request_error err), w)) /\
  (forall op bytes, marshals (spec_body op) bytes ->
     http_NewRequest_err (spec_method op) (Host c ++ "/api/v1" ++ spec_path op) = Some err ->
     run_error c op w = Some (request_error err) /\ run c op w = w).
Proof.
  assert (forall method path body bytes, marshals body bytes ->
     http_NewRequest_err method (Host c ++ "/api/v1" ++ path) = Some err ->
     makeRequest c method path body w = (inl (request_error err), w)) as Hlocal.
  { intros method path body bytes Hm Hn. unfold makeRequest, http_NewRequest.
    rewrite Hn. destruct Hm as [|b bs Hb]; [|rewrite Hb]; reflexivity. }
  split; [exact Hlocal|].
  intros op bytes Hm Hn. specialize (Hlocal _ _ _ _ Hm Hn).
  destruct op; cbn [spec_method spec_path spec_body] in Hlocal;
    unfold run_error, run, CreateTask, GetTask, UpdateTask, DeleteTask, ListTasks,
      bind, ret; rewrite Hlocal; split; reflexivity.
Qed.

(** X5. An error of the transport comes back from every operation of the
    client as it is, not wrapped, after exactly one request: no operation
    retries. *)
Theorem transport_error_passes_through (c : Client) (op : Operation) (w : World)
    (bytes : option string) (err : error) (rem : Remote) :
  marshals (spec_body op) bytes ->
  http_NewRequest_err (spec_method op) (Host c ++ "/api/v1" ++ spec_path op) = None ->
  http_Do (client c) (outgoing c (spec_method op) (spec_path op) bytes) (remote w)
    = (inl err, rem) ->
  run_error c op w = Some err /\
  run c op w =
    {| remote := rem;
       wire := wire w ++ [outgoing c (spec_method op) (spec_path op) bytes] |}.
Proof.
  intros Hm Hn Hdo.
  assert (makeRequest c (spec_method op) (spec_path op) (spec_body op) w =
          (inl err,
           {| remote := rem;
              wire := wire w ++ [outgoing c (spec_method op) (spec_path op) bytes] |}))
    as Hreq.
  { rewrite (makeRequest_sends _ _ _ _ _ _ Hm Hn). unfold Do. rewrite Hdo. reflexivity. }
  destruct op; cbn [spec_method spec_path spec_body] in Hreq;
    unfold run_error, run, CreateTask, GetTask, UpdateTask, DeleteTask, ListTasks,
      bind, ret; rewrite Hreq; split; reflexivity.
Qed.

(** X6. When the answer to [GetTask] is HTTP 200 with a body that does
    not decode, [GetTask] returns the decode error wrapped as
    [failed to decode response] and no task. *)
Theorem GetTask_decode_failure (c : Client) (id : Z) (w w' : World)
    (resp : http_Response) (err : error) :
  makeRequest c "GET" ("/tasks/" ++ Sprintf_d id) None w = (inr resp, w') ->
  StatusCode resp = 200 ->
  json_Decode_Task (RespBody resp) = inl err ->
  GetTask c id w = (inl ("failed to decode response: " ++ err), w').
Proof.
  intros Hreq Hok Hdec. unfold GetTask, bind, ret. rewrite Hreq.
  unfold http_StatusNotFound, http_StatusOK, decode_error. rewrite Hok. cbn.
  rewrite Hdec. reflexivity.
Qed.

(** *** The callbacks *)

Lemma halts_HasError {T} (resp : response.t T) (src : tfsdk_Data T) :
  ~ proceeds resp src ->
  response.HasError (response.Append resp (Get_diags src)) = true.
Proof. unfold proceeds. intros Hn. apply not_false_is_true. exact Hn. Qed.

(** X8. A callback whose diagnostics hold an error once the plan, state
    or configuration is read returns at once: the response has gained
    only what [Get] reported, its state is untouched, and the world is
    unchanged, so the remote is not called. *)
Theorem callbacks_stop_on_diagnostics (r : TaskResource.t)
    (req : request.t TaskResourceModel.t) (resp : response.t TaskResourceModel.t)
    (w : World) :
  (~ proceeds resp (request.Plan req) ->
     TaskResource_Create r req resp w =
       (response.Append resp (Get_diags (request.Plan req)), w) /\
     TaskResource_Update r req resp w =
       (response.Append resp (Get_diags (request.Plan req)), w)) /\
  (~ proceeds resp (request.State req) ->
     TaskResource_Read r req resp w =
       (response.Append resp (Get_diags (request.State req)), w) /\
     TaskResource_Delete r req resp w =
       (response.Append resp (Get_diags (request.State req)), w)) /\
  (forall (d : TaskDataSource.t) (dreq : request.t TaskDataSourceModel.t)
          (dresp : response.t TaskDataSourceModel.t),
     ~ proceeds dresp (request.Config dreq) ->
     TaskDataSource_Read d dreq dresp w =
       (response.Append dresp (Get_diags (request.Config dreq)), w)) /\
  (forall (d : TasksDataSource.t) (dreq : request.t TasksDataSourceModel.t)
          (dresp : response.t TasksDataSourceModel.t),
     ~ proceeds dresp (request.Config dreq) ->
     TasksDataSource_Read d dreq dresp w =
       (Returned (response.Append dresp (Get_diags (request.Config dreq))), w)).
Proof.
  split; [|split; [|split]].
  - intros Hn. pose proof (halts_HasError _ _ Hn) as E. split.
    + unfold TaskResource_Create. rewrite E. reflexivity.
    + unfold TaskResource_Update. rewrite E. reflexivity.
  - intros Hn. pose proof (halts_HasError _ _ Hn) as E. split.
    + unfold TaskResource_Read. rewrite E. reflexivity.
    + unfold TaskResource_Delete. rewrite E. reflexivity.
  - intros d dreq dresp Hn. pose proof (halts_HasError _ _ Hn) as E.
    unfold TaskDataSource_Read. rewrite E. reflexivity.
  - intros d dreq dresp Hn. pose proof (halts_HasError _ _ Hn) as E.
    unfold TasksDataSource_Read. rewrite E. reflexivity.
Qed.

Lemma Update_unfold (r : TaskResource.t) (req : request.t TaskResourceModel.t)
    (resp : response.t TaskResourceModel.t) (w : World) (id : Z) :
  proceeds resp (request.Plan req) ->
  Sscanf_d (ValueString (TaskResourceModel.ID (Get_data (request.Plan req)))) = inr id ->
  TaskResource_Update r req resp w =
  match update_call r (Get_data (request.Plan req)) id w with
  | (inl err, w') =>
      (client_failure resp (Get_diags (request.Plan req)) "update" err, w')
  | (inr task, w') =>
      ({| response.Diagnostics :=
            Diagnostics_Append (response.Diagnostics resp)
              (Get_diags (request.Plan req));
          response.State :=
            Some (refreshed_state (Get_data (request.Plan req)) task) |}, w')
  end.
Proof.
  intros Hp Hid. pose proof (proceeds_HasError _ _ Hp) as Ep.
  unfold TaskResource_Update, update_call. rewrite Ep, Hid. unfold bind, ret.
  destruct (UpdateTask _ id _ _ _ _ _ w) as [[err|task] w'].
  - rewrite (response_AddError_fresh _ _ _ Ep). reflexivity.
  - reflexivity.
Qed.

(** X9. Update sends the plan's title, description, due_date, priority
    and status to [UpdateTask] at the parsed id.  On success it persists
    the plan's id with every other attribute taken from the returned
    task; on an error it adds the client error diagnostic and leaves the
    state of the response as it was. *)
Theorem Update_persists_plan_id (r : TaskResource.t)
    (req : request.t TaskResourceModel.t) (resp : response.t TaskResourceModel.t)
    (w : World) (id : Z) :
  let plan := Get_data (request.Plan req) in
  proceeds resp (request.Plan req) ->
  Sscanf_d (ValueString (TaskResourceModel.ID plan)) = inr id ->
  (forall task w', update_call r plan id w = (inr task, w') ->
     TaskResource_Update r req resp w =
       ({| response.Diagnostics :=
             Diagnostics_Append (response.Diagnostics resp)
               (Get_diags (request.Plan req));
           response.State := Some (refreshed_state plan task) |}, w')) /\
  (forall err w', update_call r plan id w = (inl err, w') ->
     TaskResource_Update r req resp w =
       (client_failure resp (Get_diags (request.Plan req)) "update" err, w') /\
     response.State (fst (TaskResource_Update r req resp w)) = response.State resp).
Proof.
  intros plan Hp Hid.
  pose proof (Update_unfold r req resp w id Hp Hid) as Hupdate. fold plan in Hupdate.
  split.
  - intros task w' Hcall. rewrite Hupdate, Hcall. reflexivity.
  - intros err w' Hcall. rewrite Hupdate, Hcall. split; reflexivity.
Qed.

(** X10. Delete calls [DeleteTask] at the parsed id.  On success it
    returns the response with nothing added and the state untouched; on an
    error it adds the client error diagnostic.  An HTTP 404 is such an
    error: deleting a task the remote no longer has fails. *)
Theorem Delete_outcomes (r : TaskResource.t)
    (req : request.t TaskResourceModel.t) (resp : response.t TaskResourceModel.t)
    (w : World) (id : Z) :
  let c := TaskResource.client r in
  proceeds resp (request.State req) ->
  Sscanf_d (ValueString (TaskResourceModel.ID (Get_data (request.State req)))) = inr id ->
  (forall w', DeleteTask c id w = (None, w') ->
     TaskResource_Delete r req resp w =
       (response.Append resp (Get_diags (request.State req)), w')) /\
  (forall err w', DeleteTask c id w = (Some err, w') ->
     TaskResource_Delete r req resp w =
       (client_failure resp (Get_diags (request.State req)) "delete" err, w')) /\
  (forall hresp w',
     makeRequest c "DELETE" ("/tasks/" ++ Sprintf_d id) None w = (inr hresp, w') ->
     StatusCode hresp = 404 ->
     TaskResource_Delete r req resp w =
       (client_failure resp (Get_diags (request.State req)) "delete"
          ("task with ID " ++ Sprintf_d id ++ " not found"), w')).
Proof.
  intros c Hp Hid. pose proof (proceeds_HasError _ _ Hp) as Ep.
  assert (forall res w', DeleteTask c id w = (res, w') ->
            TaskResource_Delete r req resp w =
            match res with
            | Some err =>
                (client_failure resp (Get_diags (request.State req)) "delete" err, w')
            | None => (response.Append resp (Get_diags (request.State req)), w')
            end) as Hdelete.
  { intros res w' Hcall. unfold TaskResource_Delete. rewrite Ep, Hid.
    unfold bind, ret. fold c. rewrite Hcall. destruct res as [err|].
    - rewrite (response_AddError_fresh _ _ _ Ep). reflexivity.
    - reflexivity. }
  split; [|split].
  - intros w' Hcall. exact (Hdelete _ _ Hcall).
  - intros err w' Hcall. exact (Hdelete _ _ Hcall).
  - intros hresp w' Hreq H404. apply (Hdelete (Some _)).
    unfold DeleteTask, bind, ret. rewrite Hreq. unfold http_StatusNotFound.
    rewrite H404. reflexivity.
Qed.

(** X11. Read of the single-task data source: an id [fmt.Sscanf] rejects
    gives the parse error diagnostic with the world untouched; otherwise
    [GetTask] is called at the parsed id, and its task is persisted under
    the configured id string, or its error is reported as the client
    error diagnostic with the state left as it was. *)
Theorem TaskDataSource_Read_outcomes (d : TaskDataSource.t)
    (req : request.t TaskDataSourceModel.t) (resp : response.t TaskDataSourceModel.t)
    (w : World) :
  let config := Get_data (request.Config req) in
  let c := TaskDataSource.client d in
  proceeds resp (request.Config req) ->
  (forall err, Sscanf_d (ValueString (TaskDataSourceModel.ID config)) = inl err ->
     TaskDataSource_Read d req resp w =
       (parse_failure resp (Get_diags (request.Config req)) err, w)) /\
  (forall id, Sscanf_d (ValueString (TaskDataSourceModel.ID config)) = inr id ->
     (forall task w', GetTask c id w = (inr task, w') ->
        TaskDataSource_Read d req resp w =
          ({| response.Diagnostics :=
                Diagnostics_Append (response.Diagnostics resp)
                  (Get_diags (request.Config req));
              response.State := Some (looked_up_state config task) |}, w')) /\
     (forall err w', GetTask c id w = (inl err, w') ->
        TaskDataSource_Read d req resp w =
          (client_failure resp (Get_diags (request.Config req)) "read" err, w'))).
Proof.
  intros config c Hp. pose proof (proceeds_HasError _ _ Hp) as Ep. split.
  - intros err Herr. unfold TaskDataSource_Read. rewrite Ep. fold config.
    rewrite Herr. unfold ret, parse_failure.
    rewrite (response_AddError_fresh _ _ _ Ep). reflexivity.
  - intros id Hid. split.
    + intros task w' Hget. unfold TaskDataSource_Read. rewrite Ep. fold config.
      rewrite Hid. unfold bind, ret. fold c. rewrite Hget. reflexivity.
    + intros err w' Hget. unfold TaskDataSource_Read. rewrite Ep. fold config.
      rewrite Hid. unfold bind, ret. fold c. rewrite Hget.
      rewrite (response_AddError_fresh _ _ _ Ep). reflexivity.
Qed.

(** X12. When [ListTasks] fails, Read of the task-list data source adds
    the client error diagnostic [Unable to list tasks] and returns with
    the state of the response as it was: no partial list is persisted. *)
Theorem TasksDataSource_Read_error (d : TasksDataSource.t)
    (req : request.t TasksDataSourceModel.t)
    (resp : response.t TasksDataSourceModel.t) (w w' : World) (err : error) :
  proceeds resp (request.Config req) ->
  ListTasks (TasksDataSource.client d) w = (inl err, w') ->
  TasksDataSource_Read d req resp w =
    (Returned
       {| response.Diagnostics :=
            (Diagnostics_Append (response.Diagnostics resp)
               (Get_diags (request.Config req)) ++
             [NewErrorDiagnostic "Client Error"
                ("Unable to list tasks, got error: " ++ err)])%list;
          response.State := response.State resp |}, w').
Proof.
  intros Hp Hlist. pose proof (proceeds_HasError _ _ Hp) as Ep.
  unfold TasksDataSource_Read. rewrite Ep. unfold bind, ret. rewrite Hlist.
  rewrite (response_AddError_fresh _ _ _ Ep). reflexivity.
Qed.

Lemma convert_tasks_Panicked (tasks : list (option Task)) :
  forall (i : nat) (out : list TaskDataSourceModel.t),
    convert_tasks i tasks out = Panicked <-> None ∈ tasks.
Proof.
  induction tasks as [|[task|] rest IH]; intros i out; cbn [convert_tasks].
  - split; [discriminate | intros Hin; apply elem_of_nil in Hin; contradiction].
  - rewrite IH, elem_of_cons. split.
    + intros Hin. right. exact Hin.
    + intros [Hhead | Hin]; [discriminate | assumption].
  - rewrite elem_of_cons. split; [intros _; left; reflexivity | reflexivity].
Qed.

(** X13. Read of the task-list data source panics exactly when the list
    [ListTasks] returned has a nil element, as a JSON [null] in the array
    gives: the loop reads a field of each task without a nil check. *)
Theorem TasksDataSource_Read_panics_on_nil (d : TasksDataSource.t)
    (req : request.t TasksDataSourceModel.t)
    (resp : response.t TasksDataSourceModel.t) (w w' : World)
    (tasks : list (option Task)) :
  proceeds resp (request.Config req) ->
  ListTasks (TasksDataSource.client d) w = (inr tasks, w') ->
  (TasksDataSource_Read d req resp w = (Panicked, w') <-> None ∈ tasks).
Proof.
  intros Hp Hlist. pose proof (proceeds_HasError _ _ Hp) as Ep.
  unfold TasksDataSource_Read. rewrite Ep. unfold bind, ret. rewrite Hlist.
  rewrite <- (convert_tasks_Panicked tasks 0
                (replicate (length tasks) TaskDataSourceModel.zero)).
  destruct (convert_tasks 0 tasks _) as [out|].
  - split; discriminate.
  - split; reflexivity.
Qed.

(** X14. Whatever the plan or prior state held, a successful Create
    persists a known value for every attribute, and a successful Read or
    Update for every attribute but the id, which they keep: a null or
    unknown title, description, due_date, priority, status or timestamp
    never survives a successful callback. *)
Theorem persisted_attributes_are_known (r : TaskResource.t)
    (req : request.t TaskResourceModel.t) (resp : response.t TaskResourceModel.t)
    (w : World) :
  let c := TaskResource.client r in
  (proceeds resp (request.Plan req) ->
   forall task w', create_call r (Get_data (request.Plan req)) w = (inr task, w') ->
     exists st, response.State (fst (TaskResource_Create r req resp w)) = Some st /\
       every_attribute_known st) /\
  (proceeds resp (request.State req) ->
   forall id task w',
     Sscanf_d (ValueString (TaskResourceModel.ID (Get_data (request.State req)))) = inr id ->
     GetTask c id w = (inr task, w') ->
     exists st, response.State (fst (TaskResource_Read r req resp w)) = Some st /\
       refreshed st /\
       TaskResourceModel.ID st = TaskResourceModel.ID (Get_data (request.State req))) /\
  (proceeds resp (request.Plan req) ->
   forall id task w',
     Sscanf_d (ValueString (TaskResourceModel.ID (Get_data (request.Plan req)))) = inr id ->
     update_call r (Get_data (request.Plan req)) id w = (inr task, w') ->
     exists st, response.State (fst (TaskResource_Update r req resp w)) = Some st /\
       refreshed st /\
       TaskResourceModel.ID st = TaskResourceModel.ID (Get_data (request.Plan req))).
Proof.
  intros c. split; [|split].
  - intros Hp task w' Hcall. rewrite (Create_unfold _ _ _ _ Hp), Hcall.
    exists (created_state task). split; [reflexivity|].
    unfold every_attribute_known, refreshed, known, created_state. cbn.
    repeat split; eexists; reflexivity.
  - intros Hp id task w' Hid Hget. rewrite (Read_unfold _ _ _ _ _ Hp Hid).
    fold c. rewrite Hget. eexists. split; [reflexivity|].
    unfold refreshed, known, refreshed_state. cbn.
    repeat split; eexists; reflexivity.
  - intros Hp id task w' Hid Hcall.
    rewrite (Update_unfold _ _ _ _ _ Hp Hid), Hcall.
    eexists. split; [reflexivity|].
    unfold refreshed, known, refreshed_state. cbn.
    repeat split; eexists; reflexivity.
Qed.

(** X15. Create reads the plan through [ValueString] only: two plans
    whose title, description, due_date and priority have the same
    [ValueString] get the same request sent and the same response, so a
    null, an unknown and an empty attribute are one and the same to the
    server. *)
Theorem Create_reads_ValueString_only (r : TaskResource.t)
    (req req' : request.t TaskResourceModel.t) (resp : response.t TaskResourceModel.t)
    (w : World) :
  Get_diags (request.Plan req) = Get_diags (request.Plan req') ->
  same_strings (Get_data (request.Plan req)) (Get_data (request.Plan req')) ->
  TaskResource_Create r req resp w = TaskResource_Create r req' resp w.
Proof.
  intros Hdiags (Htitle & Hdescription & Hdue & Hpriority).
  unfold TaskResource_Create.
  rewrite Hdiags, Htitle, Hdescription, Hdue, Hpriority. reflexivity.
Qed.

(** X16. Read right after a successful Create: provided [fmt.Sscanf]
    reads back the id [fmt.Sprintf] printed, Read asks [GetTask] for the
    id the server assigned and persists that id with the attributes of
    the task it gets; when the server returns the task it created, the
    state is exactly the one Create persisted. *)
Theorem Read_after_Create (r : TaskResource.t)
    (req : request.t TaskResourceModel.t) (resp : response.t TaskResourceModel.t)
    (w w1 : World) (task : Task) :
  let created := fst (TaskResource_Create r req resp w) in
  proceeds resp (request.Plan req) ->
  create_call r (Get_data (request.Plan req)) w = (inr task, w1) ->
  Sscanf_d (Sprintf_d (ID task)) = inr (ID task) ->
  response.State created = Some (created_state task) /\
  forall task' w2, GetTask (TaskResource.client r) (ID task) w1 = (inr task', w2) ->
    TaskResource_Read r (refresh_of (created_state task)) created w1 =
      ({| response.Diagnostics := response.Diagnostics created;
          response.State := Some (refreshed_state (created_state task) task') |}, w2) /\
    TaskResourceModel.ID (refreshed_state (created_state task) task') =
      StringValue (Sprintf_d (ID task)) /\
    (task' = task -> refreshed_state (created_state task) task' = created_state task).
Proof.
  intros created Hp Hcall Hscan. subst created.
  rewrite (Create_unfold _ _ _ _ Hp), Hcall. cbn [fst response.State].
  split; [reflexivity|]. intros task' w2 Hget.
  split; [|split; [reflexivity | intros ->; reflexivity]].
  rewrite (Read_unfold r _ _ w1 (ID task)).
  - rewrite Hget. reflexivity.
  - exact Hp.
  - exact Hscan.
Qed.

(** *** Configure *)

Lemma AddError_reports (diags : list Diagnostic) (summary detail : string) :
  NewErrorDiagnostic summary detail ∈ Diagnostics_AddError diags summary detail /\
  Diagnostics_HasError (Diagnostics_AddError diags summary detail) = true.
Proof.
  assert (NewErrorDiagnostic summary detail ∈
          Diagnostics_AddError diags summary detail) as Hin.
  { unfold Diagnostics_AddError. cbn [Diagnostics_Append].
    case_bool_decide as Hd; [exact Hd|].
    apply elem_of_app. right. apply list_elem_of_singleton. reflexivity. }
  split; [exact Hin|].
  unfold Diagnostics_HasError. apply existsb_exists.
  exists (NewErrorDiagnostic summary detail). split; [|reflexivity].
  apply list_elem_of_In. exact Hin.
Qed.

(** What the provider's Configure returns once the configuration is read
    without error. *)
Lemma Configure_success (p : TaskMateProvider.t)
    (req : TaskMateProvider.ConfigureRequest)
    (resp : TaskMateProvider.ConfigureResponse) :
  let data := Get_data (TaskMateProvider.Config req) in
  let diags :=
    Diagnostics_Append (TaskMateProvider.Diagnostics resp)
      (Get_diags (TaskMateProvider.Config req)) in
  let host := ValueString (TaskMateProviderModel.Host data) in
  let c :=
    NewClient (if String.eqb host EmptyString then "http://localhost:8080" else host)
      (ValueString (TaskMateProviderModel.Token data)) in
  Diagnostics_HasError diags = false ->
  TaskMateProvider.Configure p req resp =
    {| TaskMateProvider.Diagnostics := diags;
       TaskMateProvider.DataSourceData := Some c;
       TaskMateProvider.ResourceData := Some c |}.
Proof.
  intros data diags host c Hok. unfold TaskMateProvider.Configure.
  cbn [TaskMateProvider.Diagnostics]. fold diags. rewrite Hok. reflexivity.
Qed.

(** X17. The provider's Configure, when reading the configuration left
    an error, returns with neither [ResourceData] nor [DataSourceData]
    touched.  Otherwise it adds no diagnostic of its own, a missing token
    or host is no error, and hands resources and data sources one and the
    same client: its token is the configured one (empty when unset), its
    timeout 30 seconds, and its host is never empty. *)
Theorem Configure_shares_one_client (p : TaskMateProvider.t)
    (req : TaskMateProvider.ConfigureRequest)
    (resp : TaskMateProvider.ConfigureResponse) :
  let data := Get_data (TaskMateProvider.Config req) in
  let diags :=
    Diagnostics_Append (TaskMateProvider.Diagnostics resp)
      (Get_diags (TaskMateProvider.Config req)) in
  let resp' := TaskMateProvider.Configure p req resp in
  TaskMateProvider.Diagnostics resp' = diags /\
  (Diagnostics_HasError diags = true ->
     TaskMateProvider.ResourceData resp' = TaskMateProvider.ResourceData resp /\
     TaskMateProvider.DataSourceData resp' = TaskMateProvider.DataSourceData resp) /\
  (Diagnostics_HasError diags = false ->
     exists c,
       TaskMateProvider.ResourceData resp' = Some c /\
       TaskMateProvider.DataSourceData resp' = Some c /\
       Token c = ValueString (TaskMateProviderModel.Token data) /\
       Timeout (client c) = 30000000000 /\
       Host c <> EmptyString).
Proof.
  intros data diags resp'. subst resp'.
  destruct (Diagnostics_HasError diags) eqn:Herr.
  - unfold TaskMateProvider.Configure.
    cbn [TaskMateProvider.Diagnostics]. fold diags. rewrite Herr.
    split; [reflexivity|]. split; [intros _; split; reflexivity | discriminate].
  - rewrite (Configure_success p req resp Herr). fold data. fold diags.
    split; [reflexivity|]. split; [discriminate|]. intros _.
    eexists. split; [reflexivity|]. split; [reflexivity|].
    split; [reflexivity|]. split; [reflexivity|].
    cbn [NewClient Host].
    destruct (String.eqb_spec (ValueString (TaskMateProviderModel.Host data))
                EmptyString) as [Heq|Hne]; [discriminate | exact Hne].
Qed.

(** X18. Configure of the resource and of the two data sources: without
    provider data it changes nothing; given a [*Client] it installs that
    client and adds no diagnostic; given a value of any other type it
    keeps the client it had and reports an error diagnostic that names
    the type. *)
Theorem adapters_Configure (old : option Client) (diags : list Diagnostic) :
  TaskResource_Configure old ProviderData_nil diags = (old, diags) /\
  TaskDataSource_Configure old ProviderData_nil diags = (old, diags) /\
  TasksDataSource_Configure old ProviderData_nil diags = (old, diags) /\
  (forall c,
     TaskResource_Configure old (ProviderData_Client c) diags = (c, diags) /\
     TaskDataSource_Configure old (ProviderData_Client c) diags = (c, diags) /\
     TasksDataSource_Configure old (ProviderData_Client c) diags = (c, diags)) /\
  (forall type_name,
     let detail :=
       "Expected *Client, got: " ++ type_name ++
       ". Please report this issue to the provider developers." in
     let res := TaskResource_Configure old (ProviderData_other type_name) diags in
     let ds := TaskDataSource_Configure old (ProviderData_other type_name) diags in
     let dss := TasksDataSource_Configure old (ProviderData_other type_name) diags in
     fst res = old /\ fst ds = old /\ fst dss = old /\
     NewErrorDiagnostic "Unexpected Resource Configure Type" detail ∈ snd res /\
     NewErrorDiagnostic "Unexpected Data Source Configure Type" detail ∈ snd ds /\
     NewErrorDiagnostic "Unexpected Data Source Configure Type" detail ∈ snd dss /\
     Diagnostics_HasError (snd res) = true /\
     Diagnostics_HasError (snd ds) = true /\
     Diagnostics_HasError (snd dss) = true).
Proof.
  split; [reflexivity|]. split; [reflexivity|]. split; [reflexivity|]. split.
  - intros c. repeat split; reflexivity.
  - intros type_name detail res ds dss. subst res ds dss.
    cbn [TaskResource_Configure TaskDataSource_Configure TasksDataSource_Configure
         fst snd].
    split; [reflexivity|]. split; [reflexivity|]. split; [reflexivity|].
    pose proof (AddError_reports diags "Unexpected Resource Configure Type" detail)
      as [Hin Herr].
    pose proof (AddError_reports diags "Unexpected Data Source Configure Type" detail)
      as [Hin' Herr'].
    repeat split; assumption.
Qed.

(** X19. The client the provider's Configure built is the one every
    adapter ends up with: handing [ResourceData] to the resource's
    Configure and [DataSourceData] to the data sources' installs that
    single client, with the configured host (or the default) and token,
    whatever client the adapter held before, and adds no diagnostic. *)
Theorem provider_client_reaches_adapters (p : TaskMateProvider.t)
    (req : TaskMateProvider.ConfigureRequest)
    (resp : TaskMateProvider.ConfigureResponse)
    (old : option Client) (diags : list Diagnostic) :
  let resp' := TaskMateProvider.Configure p req resp in
  let data := Get_data (TaskMateProvider.Config req) in
  Diagnostics_HasError (TaskMateProvider.Diagnostics resp') = false ->
  exists c,
    TaskResource_Configure old
      (as_ProviderData (TaskMateProvider.ResourceData resp')) diags = (Some c, diags) /\
    TaskDataSource_Configure old
      (as_ProviderData (TaskMateProvider.DataSourceData resp')) diags = (Some c, diags) /\
    TasksDataSource_Configure old
      (as_ProviderData (TaskMateProvider.DataSourceData resp')) diags = (Some c, diags) /\
    Token c = ValueString (TaskMateProviderModel.Token data) /\
    (forall host, TaskMateProviderModel.Host data = StringValue host ->
       host <> EmptyString -> Host c = host) /\
    (ValueString (TaskMateProviderModel.Host data) = EmptyString ->
       Host c = "http://localhost:8080").
Proof.
  intros resp' data Hok.
  assert (Diagnostics_HasError
            (Diagnostics_Append (TaskMateProvider.Diagnostics resp)
               (Get_diags (TaskMateProvider.Config req))) = false) as Hread.
  { subst resp'. unfold TaskMateProvider.Configure in Hok.
    cbn [TaskMateProvider.Diagnostics] in Hok.
    destruct (Diagnostics_HasError
                (Diagnostics_Append (TaskMateProvider.Diagnostics resp)
                   (Get_diags (TaskMateProvider.Config req)))) eqn:E;
      [cbn [TaskMateProvider.Diagnostics] in Hok; congruence | reflexivity]. }
  subst resp'. rewrite (Configure_success p req resp Hread). fold data.
  eexists. split; [reflexivity|]. split; [reflexivity|]. split; [reflexivity|].
  split; [reflexivity|]. cbn [NewClient Host]. split.
  - intros host Hhost Hne. rewrite Hhost. cbn [ValueString].
    apply String.eqb_neq in Hne. rewrite Hne. reflexivity.
  - intros Hempty. rewrite Hempty. reflexivity.
Qed.

(** *** Import *)

(** X20. ImportState seeds the state with the import identifier as the
    id and adds no diagnostic.  The Read that follows, when the identifier
    parses and [GetTask] succeeds, persists that identifier unchanged as
    the id, as it was typed and not reprinted from the task, with every
    other attribute known and taken from the task: nothing else of the
    seeded state survives. *)
Theorem Read_after_ImportState (r : TaskResource.t) (identifier : string)
    (resp : response.t TaskResourceModel.t) (w : World) (id : Z) :
  let imported := TaskResource_ImportState r identifier resp in
  Diagnostics_HasError (response.Diagnostics resp) = false ->
  Sscanf_d identifier = inr id ->
  response.Diagnostics imported = response.Diagnostics resp /\
  exists seeded,
    response.State imported = Some seeded /\
    TaskResourceModel.ID seeded = StringValue identifier /\
    forall task w', GetTask (TaskResource.client r) id w = (inr task, w') ->
      exists persisted,
        TaskResource_Read r (refresh_of seeded) imported w =
          ({| response.Diagnostics := response.Diagnostics resp;
              response.State := Some persisted |}, w') /\
        TaskResourceModel.ID persisted = StringValue identifier /\
        refreshed persisted /\
        persisted = refreshed_state seeded task.
Proof.
  intros imported Hok Hscan. subst imported. unfold TaskResource_ImportState.
  cbn [response.Append response.Diagnostics response.State Diagnostics_Append].
  split; [reflexivity|].
  exists (SetAttribute_id identifier (response.State resp)).
  split; [reflexivity|].
  assert (TaskResourceModel.ID (SetAttribute_id identifier (response.State resp)) =
          StringValue identifier) as Hid
    by (destruct (response.State resp); reflexivity).
  split; [exact Hid|]. intros task w' Hget.
  exists (refreshed_state (SetAttribute_id identifier (response.State resp)) task).
  split; [|split; [exact Hid | split; [|reflexivity]]].
  - rewrite (Read_unfold r _ _ w id).
    + rewrite Hget. reflexivity.
    + exact Hok.
    + cbn [refresh_of stored request.State Get_data]. rewrite Hid. exact Hscan.
  - unfold refreshed, known, refreshed_state. cbn.
    repeat split; eexists; reflexivity.
Qed.

(** *** Addresses and messages *)

Lemma append_cancel (p a b : string) : p ++ a = p ++ b -> a = b.
Proof.
  induction p as [|ch p IH]; cbn; [auto|]. intros [= Heq]. exact (IH Heq).
Qed.

(** [fmt.Sprintf("%d", n)] tells the integers apart. *)
Lemma Sprintf_d_inj (n m : Z) : Sprintf_d n = Sprintf_d m -> n = m.
Proof.
  unfold Sprintf_d. intros Heq. apply DecimalZ.to_int_inj.
  assert (forall z, NilZero.int_of_string (NilZero.string_of_int (Z.to_int z)) =
                    Some (Z.to_int z)) as Hback.
  { intros z. apply NilZero.isi; destruct z; cbn; try discriminate;
      intros [= Hnil]; exact (DecimalPos.Unsigned.to_uint_nonnil _ Hnil). }
  pose proof (Hback n) as Hn. rewrite Heq, Hback in Hn. congruence.
Qed.

(** X21. The URL of a request for one task identifies the task: two of
    Get, Update and Delete requests of one client have the same URL
    exactly when they address the same id, whatever the methods. *)
Theorem task_url_identifies_the_task (c : Client) (op op' : Operation)
    (w w0 : World) (req req' : http_Request) (id id' : Z) :
  op_id op = Some id ->
  op_id op' = Some id' ->
  wire (run c op w) = (wire w ++ [req])%list ->
  wire (run c op' w0) = (wire w0 ++ [req'])%list ->
  (URL req = URL req' <-> id = id').
Proof.
  intros Hid Hid' Hsent Hsent'.
  apply run_sent in Hsent as (bytes & _ & ->).
  apply run_sent in Hsent' as (bytes' & _ & ->).
  assert (spec_path op = "/tasks/" ++ Sprintf_d id) as ->
    by (destruct op; inversion Hid; reflexivity).
  assert (spec_path op' = "/tasks/" ++ Sprintf_d id') as ->
    by (destruct op'; inversion Hid'; reflexivity).
  unfold outgoing. cbn [URL]. split.
  - intros Heq. apply append_cancel in Heq.
    apply (append_cancel "/api/v1") in Heq.
    apply (append_cancel "/tasks/") in Heq.
    apply Sprintf_d_inj. exact Heq.
  - intros ->. reflexivity.
Qed.

(** X22. The errors the client makes up itself can be told apart by
    their message: a not-found error, an API error, a decode error, a
    marshalling error and a request-creation error never have the same
    text, whatever id, response or cause each of them carries. *)
Theorem client_errors_are_told_apart (id : Z) (resp : http_Response)
    (decoding marshalling creating : error) :
  not_found id <> api_error resp /\
  not_found id <> decode_error decoding /\
  not_found id <> marshal_error marshalling /\
  not_found id <> request_error creating /\
  api_error resp <> decode_error decoding /\
  api_error resp <> marshal_error marshalling /\
  api_error resp <> request_error creating /\
  decode_error decoding <> marshal_error marshalling /\
  decode_error decoding <> request_error creating /\
  marshal_error marshalling <> request_error creating.
Proof.
  unfold not_found, api_error, decode_error, marshal_error, request_error. cbn.
  repeat split; discriminate.
Qed.

(** *** The schema and the requests *)

(** Update touches the world through its [UpdateTask] call only. *)
Lemma Update_world (r : TaskResource.t) (req : request.t TaskResourceModel.t)
    (resp : response.t TaskResourceModel.t) (w : World) :
  snd (TaskResource_Update r req resp w) = w \/
  exists id,
    snd (TaskResource_Update r req resp w) =
    snd (update_call r (Get_data (request.Plan req)) id w).
Proof.
  unfold TaskResource_Update, update_call.
  destruct (response.HasError _); [left; reflexivity|].
  destruct (Sscanf_d _) as [err|id]; [left; reflexivity|].
  right. exists id. unfold bind, ret.
  destruct (UpdateTask _ id _ _ _ _ _ w) as [[err|task] w']; reflexivity.
Qed.

Lemma no_request_added (w : World) (req : http_Request) :
  wire w <> (wire w ++ [req])%list.
Proof.
  intros Heq. apply (f_equal length) in Heq.
  rewrite length_app in Heq. cbn in Heq. lia.
Qed.

(** X23. The schema of the resource and the requests agree: the body of
    the request Update sends has exactly the attributes a configuration
    may set (title, description, due_date, priority, status), and the
    body of the request Create sends has those but status. *)
Theorem settable_attributes_are_sent (r : TaskResource.t)
    (req : request.t TaskResourceModel.t) (resp : response.t TaskResourceModel.t)
    (w : World) :
  (forall hreq,
     wire (snd (TaskResource_Update r req resp w)) = (wire w ++ [hreq])%list ->
     exists (body : gmap string string) bytes,
       Body hreq = Some bytes /\ json_Marshal body = inr bytes /\
       dom body = settable TaskResource_Schema) /\
  (forall hreq,
     wire (snd (TaskResource_Create r req resp w)) = (wire w ++ [hreq])%list ->
     exists (body : gmap string string) bytes,
       Body hreq = Some bytes /\ json_Marshal body = inr bytes /\
       dom body = settable TaskResource_Schema ∖ {[ "status" ]}).
Proof.
  assert (settable TaskResource_Schema =
          {[ "title"; "description"; "due_date"; "priority"; "status" ]}) as Hset
    by (vm_compute; reflexivity).
  split.
  - intros hreq Hwire.
    destruct (Update_world r req resp w) as [Hsame | [id Hcall]].
    { rewrite Hsame in Hwire. exfalso. exact (no_request_added _ _ Hwire). }
    rewrite Hcall in Hwire. unfold update_call in Hwire.
    change (snd (UpdateTask ?c ?i ?t ?d ?dd ?p ?st w))
      with (run c (OpUpdateTask i t d dd p st) w) in Hwire.
    apply run_sent in Hwire as (bytes & Hm & ->).
    cbn [spec_body] in Hm. inversion Hm as [|b bs Hb]; subst.
    eexists _, bs. split; [reflexivity|]. split; [exact Hb|].
    rewrite Hset, !dom_insert_L, dom_singleton_L. set_solver.
  - intros hreq Hwire.
    destruct (Create_world r req resp w) as [Hsame | Hcall].
    { rewrite Hsame in Hwire. exfalso. exact (no_request_added _ _ Hwire). }
    rewrite Hcall in Hwire. unfold create_call in Hwire.
    change (snd (CreateTask ?c ?t ?d ?dd ?p w))
      with (run c (OpCreateTask t d dd p) w) in Hwire.
    apply run_sent in Hwire as (bytes & Hm & ->).
    cbn [spec_body] in Hm. inversion Hm as [|b bs Hb]; subst.
    eexists _, bs. split; [reflexivity|]. split; [exact Hb|].
    rewrite Hset, !dom_insert_L, dom_singleton_L. set_solver.
Qed.

End Further.

(** ** The theorems on the concrete runtime *)

Module Scenarios.
Import Fixture.

Example Sprintf_d_examples :
  Sprintf_d 42 = "42" /\ Sprintf_d 0 = "0" /\ Sprintf_d (-7) = "-7".
Proof. repeat split; reflexivity. Qed.

Example Sscanf_d_go_examples :
  Sscanf_d_go "42" = inr 42 /\ Sscanf_d_go "-7" = inr (-7) /\
  Sscanf_d_go "+5" = inr 5 /\ Sscanf_d_go " 42" = inr 42 /\
  Sscanf_d_go "12abc" = inr 12 /\ Sscanf_d_go "1.5" = inr 1 /\
  Sscanf_d_go "abc" = inl "expected integer" /\
  Sscanf_d_go "+-5" = inl "expected integer" /\
  Sscanf_d_go "-9223372036854775808" = inr (- 2 ^ 63) /\
  Sscanf_d_go "9223372036854775808" =
    inl ("strconv.ParseInt: parsing " ++ quote ++ "9223372036854775808" ++ quote ++
         ": value out of range").
Proof. repeat split; reflexivity. Qed.

Example GetTask_found :
  GetTask api 1 fresh = (inr deploy, after (sent "GET" "/tasks/1" None)).
Proof. vm_compute. reflexivity. Qed.

(** *** The theorems at work *)



Lemma request_construction_witness :
  exists req,
    wire (run api (OpCreateTask "Deploy" "Deploy v2.0 release" "2024-12-31" "high") fresh)
      = [req] /\
    Method req = "POST" /\
    URL req = "http://localhost:8080/api/v1/tasks" /\
    Header req !! "X-API-Token" = Some ["secret"] /\
    Header req !! "Content-Type" = Some ["application/json"].
Proof.
  pose (op := OpCreateTask "Deploy" "Deploy v2.0 release" "2024-12-31" "high").
  destruct (request_construction api op fresh) as (_ & Hprops & Hsends).
  assert (exists bytes, marshals (spec_body op) bytes) as [bytes Hm].
  { eexists. apply marshals_some. reflexivity. }
  destruct (Hsends bytes Hm eq_refl) as [req Hreq].
  destruct (Hprops req Hreq) as (Hmethod & Hurl & Htoken & _ & Hbody).
  exists req. split; [exact Hreq|]. split; [exact Hmethod|]. split; [exact Hurl|].
  split.
  - apply Htoken. discriminate.
  - apply Hbody; discriminate.
Defined.

Lemma every_request_headers_witness :
  (exists req, wire (run api (OpGetTask 1) fresh) = [req] /\
     Header req !! "Content-Type" = Some ["application/json"] /\
     Header req !! "X-API-Token" = Some ["secret"] /\
     Body req = None) /\
  (exists req, wire (run api (OpDeleteTask 1) fresh) = [req] /\
     Header req !! "Content-Type" = Some ["application/json"] /\
     Header req !! "X-API-Token" = Some ["secret"] /\
     Body req = None) /\
  (exists req, wire (run api OpListTasks fresh) = [req] /\
     Header req !! "Content-Type" = Some ["application/json"] /\
     Header req !! "X-API-Token" = Some ["secret"] /\
     Body req = None).
Proof.
  split; [|split].
  - destruct (every_request_headers api (OpGetTask 1) fresh) as (_ & _ & Hsends).
    destruct (Hsends (or_introl eq_refl) eq_refl) as (req & Hwire & Hct & Htoken & Hbody).
    exists req. split; [exact Hwire|]. split; [exact Hct|].
    split; [|exact Hbody]. apply Htoken. discriminate.
  - destruct (every_request_headers api (OpDeleteTask 1) fresh) as (_ & _ & Hsends).
    destruct (Hsends (or_intror eq_refl) eq_refl) as (req & Hwire & Hct & Htoken & Hbody).
    exists req. split; [exact Hwire|]. split; [exact Hct|].
    split; [|exact Hbody]. apply Htoken. discriminate.
  - destruct (every_request_headers api OpListTasks fresh) as (_ & _ & Hsends).
    destruct (Hsends (or_introl eq_refl) eq_refl) as (req & Hwire & Hct & Htoken & Hbody).
    exists req. split; [exact Hwire|]. split; [exact Hct|].
    split; [|exact Hbody]. apply Htoken. discriminate.
Defined.

Lemma GetTask_contract_witness :
  GetTask api 999999 fresh =
    (inl "task with ID 999999 not found", after (sent "GET" "/tasks/999999" None)) /\
  GetTask api 13 fresh =
    (inl "API error: internal error (status: 500)",
     after (sent "GET" "/tasks/13" None)) /\
  GetTask api 1 fresh = (inr deploy, after (sent "GET" "/tasks/1" None)).
Proof.
  assert (makeRequest api "GET" ("/tasks/" ++ Sprintf_d 999999) None fresh =
          (inr not_found_response, after (sent "GET" "/tasks/999999" None))) as H404
    by (vm_compute; reflexivity).
  assert (makeRequest api "GET" ("/tasks/" ++ Sprintf_d 13) None fresh =
          (inr broken_response, after (sent "GET" "/tasks/13" None))) as H500
    by (vm_compute; reflexivity).
  assert (makeRequest api "GET" ("/tasks/" ++ Sprintf_d 1) None fresh =
          (inr {| StatusCode := 200; RespBody := "deploy" |},
           after (sent "GET" "/tasks/1" None))) as H200
    by (vm_compute; reflexivity).
  split; [|split].
  - destruct (GetTask_contract api 999999 fresh) as (_ & _ & Hcases).
    exact (proj1 (proj2 (Hcases _ _ H404)) eq_refl).
  - destruct (GetTask_contract api 13 fresh) as (_ & _ & Hcases).
    apply (proj1 (proj2 (proj2 (Hcases _ _ H500)))); discriminate.
  - destruct (GetTask_contract api 1 fresh) as (_ & _ & Hcases).
    exact (proj2 (proj2 (proj2 (Hcases _ _ H200))) eq_refl deploy eq_refl).
Defined.

Lemma DeleteTask_contract_witness :
  DeleteTask api 999999 fresh =
    (Some "task with ID 999999 not found", after (sent "DELETE" "/tasks/999999" None)) /\
  DeleteTask api 1 fresh = (None, after (sent "DELETE" "/tasks/1" None)) /\
  DeleteTask api 13 fresh =
    (Some "API error: internal error (status: 500)",
     after (sent "DELETE" "/tasks/13" None)).
Proof.
  assert (makeRequest api "DELETE" ("/tasks/" ++ Sprintf_d 999999) None fresh =
          (inr not_found_response, after (sent "DELETE" "/tasks/999999" None))) as H404
    by (vm_compute; reflexivity).
  assert (makeRequest api "DELETE" ("/tasks/" ++ Sprintf_d 1) None fresh =
          (inr {| StatusCode := 204; RespBody := EmptyString |},
           after (sent "DELETE" "/tasks/1" None))) as H204
    by (vm_compute; reflexivity).
  assert (makeRequest api "DELETE" ("/tasks/" ++ Sprintf_d 13) None fresh =
          (inr broken_response, after (sent "DELETE" "/tasks/13" None))) as H500
    by (vm_compute; reflexivity).
  split; [|split].
  - destruct (DeleteTask_contract api 999999 fresh) as (_ & _ & Hcases).
    exact (proj1 (proj2 (Hcases _ _ H404)) eq_refl).
  - destruct (DeleteTask_contract api 1 fresh) as (_ & _ & Hcases).
    exact (proj1 (proj2 (proj2 (Hcases _ _ H204))) eq_refl).
  - destruct (DeleteTask_contract api 13 fresh) as (_ & _ & Hcases).
    apply (proj2 (proj2 (proj2 (Hcases _ _ H500)))); discriminate.
Defined.

Lemma Create_error_writes_no_state_witness :
  let unauthorized := "API error: missing token (status: 401)" in
  let posted := {| Method := "POST";
                   URL := "http://localhost:8080/api/v1/tasks";
                   Header := {[ "Content-Type" := ["application/json"] ]};
                   Body := Some create_body |} in
  TaskResource_Create {| TaskResource.client := anonymous |} (plan_deploy StringNull)
    empty_response fresh =
    ({| response.Diagnostics :=
          [NewErrorDiagnostic "Client Error"
             ("Unable to create task, got error: " ++ unauthorized)];
        response.State := None |}, after posted) /\
  exists task w',
    create_call resource (Get_data (request.Plan (plan_deploy StringNull))) fresh
      = (inr task, w').
Proof.
  intros unauthorized posted.
  destruct (Create_error_writes_no_state {| TaskResource.client := anonymous |}
              (plan_deploy StringNull) empty_response fresh) as [Hfail _].
  assert (create_call {| TaskResource.client := anonymous |}
            (Get_data (request.Plan (plan_deploy StringNull))) fresh =
          (inl unauthorized, after posted)) as Hcall
    by (vm_compute; reflexivity).
  destruct (Hfail eq_refl _ _ Hcall) as [Hcreate _].
  split; [exact Hcreate|].
  destruct (Create_error_writes_no_state resource (plan_deploy StringNull)
              empty_response fresh) as [_ Honly].
  assert (response.State (fst (TaskResource_Create resource (plan_deploy StringNull)
                                 empty_response fresh)) <>
          response.State (@empty_response TaskResourceModel.t)) as Hchanged
    by (vm_compute; discriminate).
  destruct (Honly Hchanged) as (_ & task & w' & Hok & _).
  exists task, w'. exact Hok.
Defined.

Lemma Read_refreshes_all_but_id_witness :
  let prior := model (StringValue "1") (StringValue "Old title") (StringValue "completed") in
  let gone := model (StringValue "999999") (StringValue "Deploy") StringNull in
  let kept := {| response.Diagnostics := []; response.State := Some gone |} in
  (exists persisted,
     TaskResource_Read resource (request_of prior) empty_response fresh =
       ({| response.Diagnostics := []; response.State := Some persisted |},
        after (sent "GET" "/tasks/1" None)) /\
     TaskResourceModel.ID persisted = StringValue "1" /\
     TaskResourceModel.Title persisted = StringValue "Deploy" /\
     TaskResourceModel.Status persisted = StringValue "pending") /\
  TaskResource_Read resource (request_of gone) kept fresh =
    ({| response.Diagnostics :=
          [NewErrorDiagnostic "Client Error"
             "Unable to read task, got error: task with ID 999999 not found"];
        response.State := Some gone |},
     after (sent "GET" "/tasks/999999" None)).
Proof.
  intros prior gone kept. split.
  - destruct (Read_refreshes_all_but_id resource (request_of prior) empty_response
                fresh 1 eq_refl eq_refl) as (Hok & _ & _).
    destruct (Hok deploy (after (sent "GET" "/tasks/1" None)))
      as (persisted & Hread & Hid & Htitle & _ & _ & _ & Hstatus & _).
    { vm_compute. reflexivity. }
    exists persisted. split; [exact Hread|]. split; [exact Hid|].
    split; [exact Htitle | exact Hstatus].
  - destruct (Read_refreshes_all_but_id resource (request_of gone) kept
                fresh 999999 eq_refl eq_refl) as (_ & _ & H404).
    destruct (H404 not_found_response (after (sent "GET" "/tasks/999999" None)))
      as [Hread _].
    { vm_compute. reflexivity. }
    { reflexivity. }
    exact Hread.
Defined.

Lemma TasksDataSource_Read_maps_in_order_witness :
  exists out,
    TasksDataSource_Read {| TasksDataSource.client := api |}
      (request_of {| TasksDataSourceModel.Tasks := [];
                     TasksDataSourceModel.ID := StringNull |})
      empty_response fresh =
      (Returned
         {| response.Diagnostics := [];
            response.State :=
              Some {| TasksDataSourceModel.Tasks := out;
                      TasksDataSourceModel.ID := StringValue "tasks" |} |},
       after (sent "GET" "/tasks" None)) /\
    length out = 2%nat /\
    (exists e, out !! 1%nat = Some e /\
       TaskDataSourceModel.ID e = StringValue "2" /\
       TaskDataSourceModel.Title e = StringValue "Run Integration Tests" /\
       TaskDataSourceModel.UpdatedAt e = StringValue "2024-01-03T12:00:00+01:00").
Proof.
  destruct (TasksDataSource_Read_maps_in_order {| TasksDataSource.client := api |}
              (request_of {| TasksDataSourceModel.Tasks := [];
                             TasksDataSourceModel.ID := StringNull |})
              empty_response fresh (after (sent "GET" "/tasks" None))
              [deploy; testing] eq_refl)
    as (out & Hread & Hlen & Helem).
  { vm_compute. reflexivity. }
  exists out. split; [exact Hread|]. split; [exact Hlen|].
  destruct (Helem 1%nat testing eq_refl)
    as (e & He & Hid & Htitle & _ & _ & _ & _ & _ & Hupdated & _).
  exists e. split; [exact He|]. split; [exact Hid|].
  split; [exact Htitle | exact Hupdated].
Defined.

Lemma Configure_host_default_witness :
  let p := {| TaskMateProvider.version := "test" |} in
  TaskMateProvider.ResourceData
    (TaskMateProvider.Configure p (configure_request StringNull) unconfigured) =
    Some (NewClient "http://localhost:8080" "secret") /\
  TaskMateProvider.ResourceData
    (TaskMateProvider.Configure p
       (configure_request (StringValue "https://tasks.example.com")) unconfigured) =
    Some (NewClient "https://tasks.example.com" "secret").
Proof.
  intros p. split.
  - destruct (Configure_host_default p (configure_request StringNull) unconfigured
                eq_refl) as [Hdefault _].
    destruct (Hdefault (or_introl eq_refl)) as [Hres _]. exact Hres.
  - destruct (Configure_host_default p
                (configure_request (StringValue "https://tasks.example.com"))
                unconfigured eq_refl) as [_ Hgiven].
    destruct (Hgiven "https://tasks.example.com" eq_refl) as [Hres _];
      [discriminate | exact Hres].
Defined.

Lemma Create_ignores_plan_status_witness :
  TaskResource_Create resource (plan_deploy (StringValue "completed")) empty_response fresh =
    TaskResource_Create resource (plan_deploy StringNull) empty_response fresh /\
  exists persisted,
    response.State
      (fst (TaskResource_Create resource (plan_deploy (StringValue "completed"))
              empty_response fresh)) = Some persisted /\
    TaskResourceModel.Status persisted = StringValue "pending".
Proof.
  destruct (Create_ignores_plan_status resource
              (plan_deploy (StringValue "completed")) empty_response fresh)
    as (Hsame & _ & Hstatus).
  split.
  - symmetry. exact (Hsame StringNull).
  - destruct (Hstatus eq_refl deploy
                (after {| Method := "POST";
                          URL := "http://localhost:8080/api/v1/tasks";
                          Header := {[ "Content-Type" := ["application/json"];
                                       "X-API-Token" := ["secret"] ]};
                          Body := Some create_body |}))
      as (persisted & Hstate & Hpending).
    { vm_compute. reflexivity. }
    exists persisted. split; [exact Hstate | exact Hpending].
Defined.

End Scenarios.

(** ** The further properties on the concrete runtimes *)

Module MoreScenarios.
Import Fixture.

Lemma UpdateTask_contract_witness :
  UpdateTask api 1 "Deploy" EmptyString EmptyString "high" "completed" fresh =
    (inr deploy, after (sent "PUT" "/tasks/1" (Some update_body))).
Proof.
  destruct (UpdateTask_contract api 1 "Deploy" EmptyString EmptyString "high"
              "completed" fresh) as [_ Hcases].
  assert (makeRequest api "PUT" ("/tasks/" ++ Sprintf_d 1)
            (Some {[ "title" := "Deploy"; "description" := EmptyString;
                     "due_date" := EmptyString; "priority" := "high";
                     "status" := "completed" ]}) fresh =
          (inr {| StatusCode := 200; RespBody := "deploy" |},
           after (sent "PUT" "/tasks/1" (Some update_body)))) as Hreq
    by (vm_compute; reflexivity).
  destruct (Hcases _ _ Hreq) as (_ & _ & _ & Hok).
  destruct (Hok eq_refl) as [Htask _]. exact (Htask deploy eq_refl).
Defined.

Lemma ListTasks_contract_witness :
  ListTasks api fresh =
    (inr [Some deploy; Some testing], after (sent "GET" "/tasks" None)).
Proof.
  destruct (ListTasks_contract api fresh) as [_ Hcases].
  assert (makeRequest api "GET" "/tasks" None fresh =
          (inr {| StatusCode := 200; RespBody := "deploy,testing" |},
           after (sent "GET" "/tasks" None))) as Hreq
    by (vm_compute; reflexivity).
  destruct (Hcases _ _ Hreq) as (_ & _ & Hok).
  destruct (Hok eq_refl) as [Htasks _]. exact (Htasks _ eq_refl).
Defined.

Lemma transport_error_passes_through_witness :
  run_error api (OpGetTask 77) fresh = Some "dial tcp: connection refused" /\
  run api (OpGetTask 77) fresh = after (sent "GET" "/tasks/77" None).
Proof.
  destruct (transport_error_passes_through api (OpGetTask 77) fresh None
              "dial tcp: connection refused" 1%nat) as [Herr Hworld].
  - constructor.
  - reflexivity.
  - vm_compute. reflexivity.
  - split; [exact Herr|]. rewrite Hworld. vm_compute. reflexivity.
Defined.

Lemma callbacks_stop_on_diagnostics_witness :
  let plan := model (StringValue "1") (StringValue "Deploy") StringNull in
  let halted {T} : response.t T :=
    {| response.Diagnostics := [conversion_error]; response.State := None |} in
  TaskResource_Create resource (unreadable plan) empty_response fresh = (halted, fresh) /\
  TaskResource_Delete resource (unreadable plan) empty_response fresh = (halted, fresh) /\
  TasksDataSource_Read {| TasksDataSource.client := api |} (unreadable listing)
    empty_response fresh = (Returned halted, fresh).
Proof.
  intros plan halted.
  destruct (callbacks_stop_on_diagnostics resource (unreadable plan) empty_response
              fresh) as (Hplan & Hstate & _ & Hlist).
  destruct Hplan as [Hcreate _]; [discriminate|].
  destruct Hstate as [_ Hdelete]; [discriminate|].
  split; [exact Hcreate|]. split; [exact Hdelete|].
  apply (Hlist {| TasksDataSource.client := api |} (unreadable listing)
           empty_response).
  discriminate.
Defined.

Lemma Update_persists_plan_id_witness :
  TaskResource_Update resource
    (request_of (model (StringValue "1") (StringValue "Deploy") (StringValue "completed")))
    empty_response fresh =
    ({| response.Diagnostics := [];
        response.State :=
          Some (refreshed_state
                  (model (StringValue "1") (StringValue "Deploy")
                     (StringValue "completed")) deploy) |},
     after (sent "PUT" "/tasks/1" (Some update_body))).
Proof.
  destruct (Update_persists_plan_id resource
              (request_of (model (StringValue "1") (StringValue "Deploy")
                             (StringValue "completed")))
              empty_response fresh 1 eq_refl eq_refl) as [Hok _].
  apply Hok. vm_compute. reflexivity.
Defined.

Lemma Delete_outcomes_witness :
  let state id := request_of (model (StringValue id) (StringValue "Deploy") StringNull) in
  TaskResource_Delete resource (state "1") empty_response fresh =
    (empty_response, after (sent "DELETE" "/tasks/1" None)) /\
  TaskResource_Delete resource (state "999999") empty_response fresh =
    ({| response.Diagnostics :=
          [NewErrorDiagnostic "Client Error"
             "Unable to delete task, got error: task with ID 999999 not found"];
        response.State := None |},
     after (sent "DELETE" "/tasks/999999" None)).
Proof.
  intros state. split.
  - destruct (Delete_outcomes resource (state "1") empty_response fresh 1
                eq_refl eq_refl) as (Hok & _ & _).
    apply Hok. vm_compute. reflexivity.
  - destruct (Delete_outcomes resource (state "999999") empty_response fresh 999999
                eq_refl eq_refl) as (_ & _ & H404).
    apply (H404 not_found_response).
    + vm_compute. reflexivity.
    + reflexivity.
Defined.

Lemma TaskDataSource_Read_outcomes_witness :
  let d := {| TaskDataSource.client := api |} in
  TaskDataSource_Read d (request_of (lookup "one")) empty_response fresh =
    (parse_failure empty_response [] "expected integer", fresh) /\
  TaskDataSource_Read d (request_of (lookup "1")) empty_response fresh =
    ({| response.Diagnostics := [];
        response.State := Some (looked_up_state (lookup "1") deploy) |},
     after (sent "GET" "/tasks/1" None)).
Proof.
  intros d. split.
  - destruct (TaskDataSource_Read_outcomes d (request_of (lookup "one"))
                empty_response fresh eq_refl) as [Hfail _].
    exact (Hfail "expected integer" eq_refl).
  - destruct (TaskDataSource_Read_outcomes d (request_of (lookup "1"))
                empty_response fresh eq_refl) as [_ Hparsed].
    destruct (Hparsed 1 eq_refl) as [Hok _].
    apply Hok. vm_compute. reflexivity.
Defined.

Lemma TasksDataSource_Read_error_witness :
  exists w',
    TasksDataSource_Read {| TasksDataSource.client := elsewhere |}
      (request_of listing) empty_response fresh =
      (Returned
         {| response.Diagnostics :=
              [NewErrorDiagnostic "Client Error"
                 "Unable to list tasks, got error: dial tcp: connection refused"];
            response.State := None |}, w').
Proof.
  eexists.
  apply (TasksDataSource_Read_error {| TasksDataSource.client := elsewhere |}
           (request_of listing) empty_response fresh _
           "dial tcp: connection refused" eq_refl).
  vm_compute. reflexivity.
Defined.

Lemma persisted_attributes_are_known_witness :
  exists st,
    response.State
      (fst (TaskResource_Create resource (plan_deploy StringNull)
              empty_response fresh)) = Some st /\
    every_attribute_known st.
Proof.
  destruct (persisted_attributes_are_known resource (plan_deploy StringNull)
              empty_response fresh) as (Hcreate & _ & _).
  apply (Hcreate eq_refl deploy (after (posted create_body))).
  vm_compute. reflexivity.
Defined.

Lemma Create_reads_ValueString_only_witness :
  let plan description :=
    request_of
      {| TaskResourceModel.ID := StringUnknown;
         TaskResourceModel.Title := StringValue "Deploy";
         TaskResourceModel.Description := description;
         TaskResourceModel.DueDate := StringNull;
         TaskResourceModel.Priority := StringValue "high";
         TaskResourceModel.Status := StringNull;
         TaskResourceModel.CreatedAt := StringUnknown;
         TaskResourceModel.UpdatedAt := StringUnknown |} in
  TaskResource_Create resource (plan StringNull) empty_response fresh =
    TaskResource_Create resource (plan (StringValue EmptyString)) empty_response fresh /\
  TaskResource_Create resource (plan StringUnknown) empty_response fresh =
    TaskResource_Create resource (plan (StringValue EmptyString)) empty_response fresh.
Proof.
  intros plan. split.
  - apply Create_reads_ValueString_only; [reflexivity|]. repeat split; reflexivity.
  - apply Create_reads_ValueString_only; [reflexivity|]. repeat split; reflexivity.
Defined.

Lemma Read_after_Create_witness :
  let created :=
    fst (TaskResource_Create resource (plan_deploy StringNull) empty_response fresh) in
  TaskResource_Read resource (refresh_of (created_state deploy)) created
    (after (posted create_body)) =
    ({| response.Diagnostics := []; response.State := Some (created_state deploy) |},
     then_sent (posted create_body) (sent "GET" "/tasks/1" None)).
Proof.
  intros created.
  destruct (Read_after_Create resource (plan_deploy StringNull) empty_response
              fresh (after (posted create_body)) deploy) as [_ Hread].
  - reflexivity.
  - vm_compute. reflexivity.
  - reflexivity.
  - destruct (Hread deploy (then_sent (posted create_body) (sent "GET" "/tasks/1" None)))
      as (Hstate & _ & _).
    + vm_compute. reflexivity.
    + exact Hstate.
Defined.

Lemma Configure_shares_one_client_witness :
  let p := {| TaskMateProvider.version := "test" |} in
  let failed :=
    {| TaskMateProvider.Config :=
         {| Get_diags := [conversion_error];
            Get_data := {| TaskMateProviderModel.Host := StringNull;
                           TaskMateProviderModel.Token := StringNull |} |} |} in
  TaskMateProvider.ResourceData (TaskMateProvider.Configure p failed unconfigured) = None /\
  exists c,
    TaskMateProvider.ResourceData
      (TaskMateProvider.Configure p (configure_request StringNull) unconfigured) = Some c /\
    TaskMateProvider.DataSourceData
      (TaskMateProvider.Configure p (configure_request StringNull) unconfigured) = Some c /\
    Token c = "secret" /\ Host c <> EmptyString.
Proof.
  intros p failed. split.
  - destruct (Configure_shares_one_client p failed unconfigured) as (_ & Herr & _).
    destruct (Herr eq_refl) as [Hres _]. exact Hres.
  - destruct (Configure_shares_one_client p (configure_request StringNull) unconfigured)
      as (_ & _ & Hok).
    destruct (Hok eq_refl) as (c & Hres & Hds & Htoken & _ & Hhost).
    exists c. repeat split; assumption.
Defined.

Lemma provider_client_reaches_adapters_witness :
  let p := {| TaskMateProvider.version := "test" |} in
  let configured :=
    TaskMateProvider.Configure p
      (configure_request (StringValue "https://tasks.example.com")) unconfigured in
  exists c,
    TaskResource_Configure None
      (as_ProviderData (TaskMateProvider.ResourceData configured)) [] = (Some c, []) /\
    TasksDataSource_Configure None
      (as_ProviderData (TaskMateProvider.DataSourceData configured)) [] = (Some c, []) /\
    Host c = "https://tasks.example.com" /\ Token c = "secret".
Proof.
  intros p configured.
  destruct (provider_client_reaches_adapters p
              (configure_request (StringValue "https://tasks.example.com"))
              unconfigured None [] eq_refl)
    as (c & Hres & _ & Hdss & Htoken & Hhost & _).
  exists c. split; [exact Hres|]. split; [exact Hdss|]. split; [|exact Htoken].
  apply Hhost; [reflexivity | discriminate].
Defined.

Lemma Read_after_ImportState_witness :
  let imported := TaskResource_ImportState resource "1" empty_response in
  exists seeded persisted,
    response.State imported = Some seeded /\
    TaskResource_Read resource (refresh_of seeded) imported fresh =
      ({| response.Diagnostics := []; response.State := Some persisted |},
       after (sent "GET" "/tasks/1" None)) /\
    TaskResourceModel.ID persisted = StringValue "1" /\
    TaskResourceModel.Title persisted = StringValue "Deploy".
Proof.
  intros imported.
  destruct (Read_after_ImportState resource "1" empty_response fresh 1 eq_refl eq_refl)
    as (_ & seeded & Hseeded & _ & Hread).
  destruct (Hread deploy (after (sent "GET" "/tasks/1" None)))
    as (persisted & Hresult & Hid & _ & Heq).
  { vm_compute. reflexivity. }
  exists seeded, persisted. split; [exact Hseeded|]. split; [exact Hresult|].
  split; [exact Hid|]. rewrite Heq. reflexivity.
Defined.

Lemma task_url_identifies_the_task_witness :
  URL (sent "GET" "/tasks/1" None) = URL (sent "DELETE" "/tasks/1" None) /\
  URL (sent "GET" "/tasks/1" None) <> URL (sent "GET" "/tasks/13" None).
Proof.
  assert (wire (run api (OpGetTask 1) fresh) =
          (wire fresh ++ [sent "GET" "/tasks/1" None])%list) as Hget
    by (vm_compute; reflexivity).
  assert (wire (run api (OpDeleteTask 1) fresh) =
          (wire fresh ++ [sent "DELETE" "/tasks/1" None])%list) as Hdelete
    by (vm_compute; reflexivity).
  assert (wire (run api (OpGetTask 13) fresh) =
          (wire fresh ++ [sent "GET" "/tasks/13" None])%list) as Hother
    by (vm_compute; reflexivity).
  split.
  - apply (task_url_identifies_the_task api (OpGetTask 1) (OpDeleteTask 1)
             fresh fresh _ _ 1 1 eq_refl eq_refl Hget Hdelete).
    reflexivity.
  - intros Heq.
    apply (task_url_identifies_the_task api (OpGetTask 1) (OpGetTask 13)
             fresh fresh _ _ 1 13 eq_refl eq_refl Hget Hother) in Heq.
    discriminate Heq.
Defined.

Lemma settable_attributes_are_sent_witness :
  exists (body : gmap string string) bytes,
    Body (sent "PUT" "/tasks/1" (Some update_body)) = Some bytes /\
    json_Marshal body = inr bytes /\
    dom body = settable TaskResource_Schema.
Proof.
  destruct (settable_attributes_are_sent resource
              (request_of (model (StringValue "1") (StringValue "Deploy")
                             (StringValue "completed")))
              empty_response fresh) as [Hupdate _].
  apply Hupdate. vm_compute. reflexivity.
Defined.

End MoreScenarios.

Module FaultyScenarios.
Import Faulty.

Lemma CreateTask_contract_witness :
  CreateTask Fixture.api "Deploy" EmptyString EmptyString "high" fresh =
    (inl "API error: deploy (status: 200)",
     after (Fixture.posted Fixture.create_body)).
Proof.
  destruct (CreateTask_contract Fixture.api "Deploy" EmptyString EmptyString "high"
              fresh) as [_ Hcases].
  assert (makeRequest Fixture.api "POST" "/tasks"
            (Some {[ "title" := "Deploy"; "description" := EmptyString;
                     "due_date" := EmptyString; "priority" := "high" ]}) fresh =
          (inr {| StatusCode := 200; RespBody := "deploy" |},
           after (Fixture.posted Fixture.create_body))) as Hreq
    by (vm_compute; reflexivity).
  destruct (Hcases _ _ Hreq) as (_ & Hother & _).
  apply Hother. discriminate.
Defined.

Lemma request_creation_failure_sends_nothing_witness :
  let refusal :=
    "parse " ++ quote ++ ":8080/api/v1/tasks/1" ++ quote ++ ": missing protocol scheme" in
  run_error no_scheme (OpGetTask 1) fresh = Some (request_error refusal) /\
  run no_scheme (OpGetTask 1) fresh = fresh /\
  makeRequest no_scheme "GET" "/tasks/1" None fresh = (inl (request_error refusal), fresh).
Proof.
  intros refusal.
  destruct (request_creation_failure_sends_nothing no_scheme fresh refusal)
    as [Hlocal Hrun].
  destruct (Hrun (OpGetTask 1) None) as [Herr Hworld]; [constructor | reflexivity |].
  split; [exact Herr|]. split; [exact Hworld|].
  apply (Hlocal "GET" "/tasks/1" None None); [constructor | reflexivity].
Defined.

Lemma GetTask_decode_failure_witness :
  GetTask Fixture.api 1 fresh =
    (inl "failed to decode response: invalid character '<' looking for beginning of value",
     after (Fixture.sent "GET" "/tasks/1" None)).
Proof.
  apply (GetTask_decode_failure Fixture.api 1 fresh _
           {| StatusCode := 200; RespBody := "<html>" |}).
  - vm_compute. reflexivity.
  - reflexivity.
  - reflexivity.
Defined.

Lemma TasksDataSource_Read_panics_on_nil_witness :
  TasksDataSource_Read {| TasksDataSource.client := Fixture.api |}
    (Fixture.request_of Fixture.listing) Fixture.empty_response fresh =
    (Panicked, after (Fixture.sent "GET" "/tasks" None)).
Proof.
  apply (TasksDataSource_Read_panics_on_nil {| TasksDataSource.client := Fixture.api |}
           (Fixture.request_of Fixture.listing) Fixture.empty_response fresh
           (after (Fixture.sent "GET" "/tasks" None))
           [Some Fixture.deploy; None]).
  - reflexivity.
  - vm_compute. reflexivity.
  - apply elem_of_cons. right. apply elem_of_cons. left. reflexivity.
Defined.

(** C7. A successful answer of [ListTasks] whose array holds a [null]
    after a task: the list decodes with a nil element, and Read of the
    task-list data source panics on it in the loop, where it should have
    persisted a list of as many elements as the answer has. *)
Theorem TasksDataSource_Read_null_element :
  let d := {| TasksDataSource.client := Fixture.api |} in
  let answer := [Some Fixture.deploy; None] in
  ListTasks Fixture.api fresh = (inr answer, after (Fixture.sent "GET" "/tasks" None)) /\
  length answer = 2%nat /\
  TasksDataSource_Read d (Fixture.request_of Fixture.listing) Fixture.empty_response fresh =
    (Panicked, after (Fixture.sent "GET" "/tasks" None)) /\
  forall out,
    TasksDataSource_Read d (Fixture.request_of Fixture.listing) Fixture.empty_response
      fresh <> (Returned out, after (Fixture.sent "GET" "/tasks" None)).
Proof.
  intros d answer.
  assert (TasksDataSource_Read d (Fixture.request_of Fixture.listing)
            Fixture.empty_response fresh =
          (Panicked, after (Fixture.sent "GET" "/tasks" None))) as Hpanic
    by (vm_compute; reflexivity).
  split; [vm_compute; reflexivity|]. split; [reflexivity|].
  split; [exact Hpanic|].
  intros out Hout. rewrite Hpanic in Hout. discriminate Hout.
Qed.

End FaultyScenarios.
